(** * TM1637 seven-segment display driver (tm1637.py): model and properties

    The driver bit-bangs a two-wire bus through two GPIO pins.  The model
    below follows [src/tm1637.py] function by function:

    - Python integers are [Z]; [>>], [&] and [|] are [Z.shiftr], [Z.land]
      and [Z.lor] (both languages use the infinite two's complement view);
    - a [str] is a [string]; a character is an [ascii] code unit (the
      driver accepts letters, digits, space, dash and star only; code points
      above 255, refused like any other character, are not represented);
    - a [bytearray] and a [list] of integers are both [list Z]; where the
      source depends on which of the two it holds (list concatenation in
      [scroll]) the value carries a tag ([pyseq]);
    - an exception is a [Raise] result; a default argument ([pos=0],
      [colon=False]) is passed explicitly;
    - pin writes and sleeps are recorded, in order, in the [bus] trace of the
      [world] that every method threads through. *)

From Stdlib Require Import ZArith String Ascii List Lia Bool QArith.
From stdpp Require Import base list.

Local Open Scope Z_scope.

(** ** Exceptions and results *)

Inductive exn : Type :=
| ValueError (msg : string)
| TypeError
| IndexError.

Inductive result (A : Type) : Type :=
| Ok (a : A)
| Raise (e : exn).

Arguments Ok {A} a.
Arguments Raise {A} e.

Definition bind_result {A B} (r : result A) (k : A -> result B) : result B :=
  match r with
  | Ok a => k a
  | Raise e => Raise e
  end.

Notation "'let?' x ':=' e 'in' k" := (bind_result e (fun x => k))
  (at level 10, x name, e at level 100, k at level 200).

(** ** Module constants *)

Definition TM1637_MAX_DIGITS : Z := 6.
Definition TM1637_CMD1 : Z := 64.
Definition TM1637_CMD2 : Z := 192.
Definition TM1637_CMD3 : Z := 128.
Definition TM1637_DSP_ON : Z := 8.
Definition TM1637_DELAY : Z := 10.
Definition TM1637_MSB : Z := 128.

(** 0-9, a-z, blank, dash, star *)
Definition _SEGMENTS : list Z :=
  [0x3F; 0x06; 0x5B; 0x4F; 0x66; 0x6D; 0x7D; 0x07; 0x7F; 0x6F;
   0x77; 0x7C; 0x39; 0x5E; 0x79; 0x71; 0x3D; 0x76; 0x06; 0x1E;
   0x76; 0x38; 0x55; 0x54; 0x3F; 0x73; 0x67; 0x50; 0x6D; 0x78;
   0x3E; 0x1C; 0x2A; 0x76; 0x6E; 0x5B; 0x00; 0x40; 0x63].

(** ** Python sequences *)

Definition len {A} (l : list A) : Z := Z.of_nat (length l).

(** [range(n)] *)
Definition range (n : Z) : list Z := map Z.of_nat (seq 0 (Z.to_nat n)).

(** [[x] * n]; a count below one gives the empty list. *)
Definition list_repeat {A} (x : A) (n : Z) : list A := replicate (Z.to_nat n) x.

(** Position of index [i] in a sequence of length [n]: negative indices count
    from the end, anything still outside is an [IndexError]. *)
Definition norm_index (n : nat) (i : Z) : result nat :=
  let j := if i <? 0 then i + Z.of_nat n else i in
  if (0 <=? j) && (j <? Z.of_nat n) then Ok (Z.to_nat j) else Raise IndexError.

(** [a[i]] *)
Definition getitem (a : list Z) (i : Z) : result Z :=
  let? k := norm_index (length a) i in
  match a !! k with
  | Some v => Ok v
  | None => Raise IndexError
  end.

(** [bytearray(n)] *)
Definition bytearray (n : Z) : list Z := list_repeat 0 n.

(** [a[i] = v] on a bytearray.  CPython refuses a value outside
    [range(256)]; the driver never stores one, see [encode_char_byte]. *)
Definition bytearray_setitem (a : list Z) (i v : Z) : result (list Z) :=
  let? k := norm_index (length a) i in
  if (0 <=? v) && (v <? 256) then Ok (<[k := v]> a)
  else Raise (ValueError "byte must be in range(0, 256)").

(** A bound of a slice [a[lo:hi]], clipped to the sequence. *)
Definition slice_bound (n : nat) (i : Z) : nat :=
  if i <? 0 then Z.to_nat (Z.max 0 (i + Z.of_nat n))
  else Z.to_nat (Z.min i (Z.of_nat n)).

(** [a[lo:hi]] *)
Definition slice {A} (a : list A) (lo hi : Z) : list A :=
  let l := slice_bound (length a) lo in
  let h := slice_bound (length a) hi in
  take (h - l) (drop l a).

(** [s[:n]] on a string *)
Definition str_prefix (s : string) (n : Z) : string :=
  string_of_list_ascii
    (take (slice_bound (String.length s) n) (list_ascii_of_string s)).

(** [ord(c)] *)
Definition ord (c : ascii) : Z := Z.of_nat (nat_of_ascii c).

(** ** Number formatting *)

(** One digit in lowercase, as both ['d'] and ['x'] print it. *)
Definition digit_char (d : Z) : ascii :=
  ascii_of_nat (Z.to_nat (if d <? 10 then 48 + d else 87 + d)).

(** The digits of a non-negative [n] in [base], most significant first. *)
Fixpoint digits_acc (fuel : nat) (base n : Z) (acc : string) : string :=
  let acc' := String (digit_char (n mod base)) acc in
  match fuel with
  | O => acc'
  | S fuel' => if n <? base then acc' else digits_acc fuel' base (n / base) acc'
  end.

Definition digits_str (base n : Z) : string :=
  digits_acc (Z.to_nat n) base n "".

(** [str.rjust]: pad on the left with [fill] up to [width]. *)
Definition rjust (fill : ascii) (width : Z) (s : string) : string :=
  String.append
    (string_of_list_ascii
       (replicate (Z.to_nat (width - Z.of_nat (String.length s))) fill))
    s.

(** ['{:d}'.format(n)] *)
Definition format_d (n : Z) : string :=
  if n <? 0 then String "-" (digits_str 10 (- n)) else digits_str 10 n.

(** ['{0:F>Wd}'.format(n)]: explicit fill [F], right aligned, width [W]. *)
Definition format_d_right (fill : ascii) (width n : Z) : string :=
  rjust fill width (format_d n).

(** ['{:0Wx}'.format(n)]: the zero flag pads after the sign. *)
Definition format_x_zero (width n : Z) : string :=
  if n <? 0 then String "-" (rjust "0" (width - 1) (digits_str 16 (- n)))
  else rjust "0" width (digits_str 16 n).

(** ** Character and string encoding *)

Inductive variant : Type := Plain | Decimal.

(** [encode_digit] *)
Definition encode_digit (digit : Z) : result Z :=
  getitem _SEGMENTS (Z.land digit 0x0f).

(** The message of the [ValueError] of [encode_char]:
    ["Character out of range: {:d} '{:s}'".format(o, chr(o))]. *)
Definition char_out_of_range (c : ascii) : string :=
  String.append "Character out of range: "
    (String.append (format_d (ord c)) (String.append " '" (String c "'"))).

(** [encode_char] *)
Definition encode_char (char : ascii) : result Z :=
  let o := ord char in
  if o =? 32 then getitem _SEGMENTS 36
  else if o =? 42 then getitem _SEGMENTS 38
  else if o =? 45 then getitem _SEGMENTS 37
  else if (65 <=? o) && (o <=? 90) then getitem _SEGMENTS (o - 55)
  else if (97 <=? o) && (o <=? 122) then getitem _SEGMENTS (o - 87)
  else if (48 <=? o) && (o <=? 57) then getitem _SEGMENTS (o - 48)
  else Raise (ValueError (char_out_of_range char)).

(** The loop of [TM1637.encode_string], over [enumerate(string)] from
    index [i]. *)
Fixpoint encode_loop (cs : list ascii) (i : Z) (segments : list Z)
  : result (list Z) :=
  match cs with
  | [] => Ok segments
  | c :: cs' =>
      let? v := encode_char c in
      let? segments' := bytearray_setitem segments i v in
      encode_loop cs' (i + 1) segments'
  end.

(** [TM1637.encode_string] *)
Definition encode_string_plain (s : string) : result (list Z) :=
  encode_loop (list_ascii_of_string s) 0 (bytearray (Z.of_nat (String.length s))).

(** [string.replace('.', '')] *)
Definition remove_dots (s : string) : string :=
  string_of_list_ascii
    (List.filter (fun c => negb (Ascii.eqb c ".")) (list_ascii_of_string s)).

(** The loop of [TM1637Decimal.encode_string]; [continue] skips the rest of
    the body for a dot that has a predecessor. *)
Fixpoint encode_decimal_loop (cs : list ascii) (j : Z) (segments : list Z)
  : result (list Z) :=
  match cs with
  | [] => Ok segments
  | c :: cs' =>
      if Ascii.eqb c "." && (0 <? j) then
        let? old := getitem segments (j - 1) in
        let? segments' := bytearray_setitem segments (j - 1) (Z.lor old TM1637_MSB) in
        encode_decimal_loop cs' j segments'
      else
        let? v := encode_char c in
        let? segments' := bytearray_setitem segments j v in
        encode_decimal_loop cs' (j + 1) segments'
  end.

(** [TM1637Decimal.encode_string] *)
Definition encode_string_decimal (s : string) : result (list Z) :=
  encode_decimal_loop (list_ascii_of_string s) 0
    (bytearray (Z.of_nat (String.length (remove_dots s)))).

(** [self.encode_string], dispatched on the class of the device. *)
Definition encode_string (k : variant) (s : string) : result (list Z) :=
  match k with
  | Plain => encode_string_plain s
  | Decimal => encode_string_decimal s
  end.

(** ** Pins, time and the device *)

Inductive pin : Type := CLK | DIO.

(** What the driver can do to its collaborators: [p.init(Pin.OUT, value=v)],
    [p(v)], [p()], [sleep_us(n)] and [sleep_ms(n)]. *)
Inductive event : Type :=
| PinInit (p : pin) (value : Z)
| PinWrite (p : pin) (value : Z)
| PinRead (p : pin)
| SleepUs (us : Z)
| SleepMs (ms : Z).

(** The fields of a [TM1637] object next to its two pins; [cls] is its
    class, which selects the [encode_string] that [self] resolves to. *)
Record TM1637 : Type := mkTM1637 {
  cls : variant;
  _brightness : Z;
  _digits : Z
}.

Record world : Type := mkWorld {
  device : TM1637;
  bus : list event
}.

(** A method body: it reads and updates the world and returns or raises.
    An exception keeps the world as it was at the [raise]. *)
Definition M (A : Type) : Type := world -> result A * world.

Definition ret {A} (a : A) : M A := fun w => (Ok a, w).

Definition bind {A B} (c : M A) (k : A -> M B) : M B :=
  fun w =>
    match c w with
    | (Ok a, w') => k a w'
    | (Raise e, w') => (Raise e, w')
    end.

Definition raise {A} (e : exn) : M A := fun w => (Raise e, w).

Definition lift {A} (r : result A) : M A := fun w => (r, w).

Definition get_self : M TM1637 := fun w => (Ok (device w), w).

Definition put_self (d : TM1637) : M unit :=
  fun w => (Ok tt, {| device := d; bus := bus w |}).

Definition emit (e : event) : M unit :=
  fun w => (Ok tt, {| device := device w; bus := bus w ++ [e] |}).

Declare Scope tm_scope.
Delimit Scope tm_scope with tm.
Notation "x <- c ;; k" := (bind c (fun x => k))
  (at level 100, c at next level, right associativity) : tm_scope.
Notation "c ;; k" := (bind c (fun _ => k))
  (at level 100, right associativity) : tm_scope.
Local Open Scope tm_scope.

(** [for x in l: body(x)] *)
Fixpoint for_each {A} (l : list A) (body : A -> M unit) : M unit :=
  match l with
  | [] => ret tt
  | x :: l' => body x ;; for_each l' body
  end.

Definition clk (v : Z) : M unit := emit (PinWrite CLK v).
Definition dio (v : Z) : M unit := emit (PinWrite DIO v).
Definition sleep_us (n : Z) : M unit := emit (SleepUs n).
Definition sleep_ms (n : Z) : M unit := emit (SleepMs n).

(** ** Bus protocol *)

Definition _start : M unit :=
  dio 0 ;;
  sleep_us TM1637_DELAY ;;
  clk 0 ;;
  sleep_us TM1637_DELAY.

Definition _stop : M unit :=
  dio 0 ;;
  sleep_us TM1637_DELAY ;;
  clk 1 ;;
  sleep_us TM1637_DELAY ;;
  dio 1.

Definition _write_byte (b : Z) : M unit :=
  for_each (range 8) (fun i =>
    dio (Z.land (Z.shiftr b i) 1) ;;
    sleep_us TM1637_DELAY ;;
    clk 1 ;;
    sleep_us TM1637_DELAY ;;
    clk 0 ;;
    sleep_us TM1637_DELAY) ;;
  clk 0 ;;
  sleep_us TM1637_DELAY ;;
  clk 1 ;;
  sleep_us TM1637_DELAY ;;
  clk 0 ;;
  sleep_us TM1637_DELAY.

Definition _write_data_cmd : M unit :=
  _start ;;
  _write_byte TM1637_CMD1 ;;
  _stop.

Definition _write_dsp_ctrl : M unit :=
  self <- get_self ;;
  _start ;;
  _write_byte (Z.lor (Z.lor TM1637_CMD3 TM1637_DSP_ON) (_brightness self)) ;;
  _stop.

(** [TM1637(clk, dio, brightness, digits)] for class [k], on a bus that has
    seen [bus0]. *)
Definition __init__ (k : variant) (brightness digits : Z) (bus0 : list event)
  : result TM1637 * list event :=
  if negb ((0 <=? brightness) && (brightness <=? 7)) then
    (Raise (ValueError "Brightness out of range"), bus0)
  else if negb ((1 <=? digits) && (digits <=? TM1637_MAX_DIGITS)) then
    (Raise (ValueError "Number of digits should be between 1 and 6"), bus0)
  else
    let self := {| cls := k; _brightness := brightness; _digits := digits |} in
    match (emit (PinInit CLK 0) ;;
           emit (PinInit DIO 0) ;;
           sleep_us TM1637_DELAY ;;
           _write_data_cmd ;;
           _write_dsp_ctrl) {| device := self; bus := bus0 |} with
    | (Ok _, w) => (Ok (device w), bus w)
    | (Raise e, w) => (Raise e, bus w)
    end.

(** ** Session management *)

(** [brightness(val)]: the getter returns the level, the setter [None]. *)
Definition brightness (val : option Z) : M (option Z) :=
  self <- get_self ;;
  match val with
  | None => ret (Some (_brightness self))
  | Some v =>
      if negb ((0 <=? v) && (v <=? 7)) then
        raise (ValueError "Brightness out of range")
      else
        put_self {| cls := cls self; _brightness := v; _digits := _digits self |} ;;
        _write_data_cmd ;;
        _write_dsp_ctrl ;;
        ret None
  end.

(** [write(segments, pos)] *)
Definition write (segments : list Z) (pos : Z) : M unit :=
  self <- get_self ;;
  if negb ((0 <=? pos) && (pos <? _digits self)) then
    raise (ValueError "Position out of range")
  else
    _write_data_cmd ;;
    _start ;;
    _write_byte (Z.lor TM1637_CMD2 pos) ;;
    for_each segments (fun seg => _write_byte seg) ;;
    _stop ;;
    _write_dsp_ctrl.

(** ** Rendering *)

(** [segments[1] |= 0x80] *)
Definition set_colon (segments : list Z) : result (list Z) :=
  let? old := getitem segments 1 in
  bytearray_setitem segments 1 (Z.lor old 0x80).

(** [hex(val)] *)
Definition hex (val : Z) : M unit :=
  self <- get_self ;;
  let mask := Z.shiftl 1 (8 * _digits self) - 1 in
  let string := format_x_zero (_digits self) (Z.land val mask) in
  segments <- lift (encode_string (cls self) string) ;;
  write segments 0.

(** [number(num)]; the exponents are not negative on a device that
    [__init__] accepted, so both powers are integers. *)
Definition number (num : Z) : M unit :=
  self <- get_self ;;
  let num := Z.max (- 10 ^ (_digits self - 1) + 1)
                   (Z.min num (10 ^ _digits self - 1)) in
  let string := format_d_right " " (_digits self) num in
  segments <- lift (encode_string (cls self) string) ;;
  write segments 0.

(** [hour_minute(hour, minute, colon)] *)
Definition hour_minute (hour minute : Z) (colon : bool) : M unit :=
  self <- get_self ;;
  let num1 := Z.max (-9) (Z.min hour 99) in
  let num2 := Z.max (-9) (Z.min minute 99) in
  segments <- lift (encode_string (cls self)
    (String.append (format_d_right "0" 2 num1) (format_d_right "0" 2 num2))) ;;
  segments <- (if colon then lift (set_colon segments) else ret segments) ;;
  write segments 0.

(** [numbers(num1, num2, colon)] *)
Definition numbers (num1 num2 : Z) (colon : bool) : M unit :=
  hour_minute num1 num2 colon.

(** [show(string, colon)] *)
Definition show (string : string) (colon : bool) : M unit :=
  self <- get_self ;;
  segments <- lift (encode_string (cls self) (str_prefix string (_digits self))) ;;
  segments <- (if (1 <? len segments) && colon
               then lift (set_colon segments) else ret segments) ;;
  write segments 0.

(** [10 ** e]: an [int] when [e >= 0], otherwise the float [10.0 ** e].
    [temperature] only compares such a power, shifted by one, with an
    integer; the float lies strictly between the same two neighbouring
    integers as the exact power, so the exact rational stands in for it. *)
Definition pow10 (e : Z) : Q :=
  if 0 <=? e then inject_Z (10 ^ e) else Qinv (inject_Z (10 ^ (- e))).

(** [a < b] *)
Definition Qltb (a b : Q) : bool := negb (Qle_bool b a).

(** [temperature(num)] *)
Definition temperature (num : Z) : M unit :=
  self <- get_self ;;
  (if Qltb (inject_Z num) (Qplus (Qopp (pow10 (_digits self - 3))) (inject_Z 1)) then
     show "lo" false
   else if Qltb (Qminus (pow10 (_digits self - 2)) (inject_Z 1)) (inject_Z num) then
     show "hi" false
   else
     let string := format_d_right " " (_digits self - 2) num in
     segments <- lift (encode_string (cls self) string) ;;
     write segments 0) ;;
  degree <- lift (getitem _SEGMENTS 38) ;;
  letter_c <- lift (getitem _SEGMENTS 12) ;;
  write [degree; letter_c] (_digits self - 2).

(** What [scroll] may be given: a [str] or a [list] of segments. *)
Inductive scroll_input : Type :=
| Text (s : string)
| Segments (l : list Z).

(** A sequence of integers together with its Python type. *)
Inductive pyseq : Type :=
| PyList (l : list Z)
| PyBytearray (l : list Z).

Definition pyseq_len (s : pyseq) : Z :=
  match s with
  | PyList l | PyBytearray l => len l
  end.

(** [a + b] for a list [a]: only another list can be concatenated to it,
    [list + bytearray] is a [TypeError]. *)
Definition list_add (a : list Z) (b : pyseq) : result (list Z) :=
  match b with
  | PyList l => Ok (a ++ l)
  | PyBytearray _ => Raise TypeError
  end.

(** [scroll(string, delay)] *)
Definition scroll (string : scroll_input) (delay : Z) : M unit :=
  self <- get_self ;;
  segments <- match string with
              | Segments l => ret (PyList l)
              | Text s =>
                  b <- lift (encode_string (cls self) s) ;;
                  ret (PyBytearray b)
              end ;;
  front <- lift (list_add (list_repeat 0 (_digits self)) segments) ;;
  let data := front ++ list_repeat 0 (_digits self) in
  for_each (range (pyseq_len segments + _digits self + 1)) (fun i =>
    write (slice data (0 + i) (_digits self + i)) 0 ;;
    sleep_ms delay).

(** ** Traces *)

(** The world after the bus has seen [evs] more events. *)
Definition extend (w : world) (evs : list event) : world :=
  {| device := device w; bus := bus w ++ evs |}.

Definition start_events : list event :=
  [PinWrite DIO 0; SleepUs 10; PinWrite CLK 0; SleepUs 10].

Definition stop_events : list event :=
  [PinWrite DIO 0; SleepUs 10; PinWrite CLK 1; SleepUs 10; PinWrite DIO 1].

(** One data bit: the level on the data line, then a clock pulse. *)
Definition bit_events (level : bool) : list event :=
  [PinWrite DIO (Z.b2z level); SleepUs 10;
   PinWrite CLK 1; SleepUs 10;
   PinWrite CLK 0; SleepUs 10].

(** The clock pulse during which the chip acknowledges. *)
Definition ack_events : list event :=
  [PinWrite CLK 0; SleepUs 10;
   PinWrite CLK 1; SleepUs 10;
   PinWrite CLK 0; SleepUs 10].

Definition byte_events (b : Z) : list event :=
  bit_events (Z.testbit b 0) ++ bit_events (Z.testbit b 1) ++
  bit_events (Z.testbit b 2) ++ bit_events (Z.testbit b 3) ++
  bit_events (Z.testbit b 4) ++ bit_events (Z.testbit b 5) ++
  bit_events (Z.testbit b 6) ++ bit_events (Z.testbit b 7) ++
  ack_events.

Definition data_cmd_events : list event :=
  start_events ++ byte_events 0x40 ++ stop_events.

Definition dsp_ctrl_events (level : Z) : list event :=
  start_events ++ byte_events (Z.lor 0x88 level) ++ stop_events.

(** One complete [write]: data command, the address frame with every
    segment byte in order, display control. *)
Definition write_events (level : Z) (segments : list Z) (pos : Z) : list event :=
  data_cmd_events ++
  start_events ++ byte_events (Z.lor 0xC0 pos) ++
  flat_map byte_events segments ++
  stop_events ++
  dsp_ctrl_events level.

Definition is_read (e : event) : bool :=
  match e with
  | PinRead _ => true
  | _ => false
  end.

(** The byte that a receiver sampling the data line assembles from eight
    levels, first level least significant. *)
Definition byte_of_bits (bits : list bool) : Z :=
  fold_right (fun (b : bool) acc => Z.b2z b + 2 * acc) 0 bits.

(** The events that running [c] from [w] adds to the bus. *)
Definition emitted {A} (c : M A) (w : world) : list event :=
  drop (length (bus w)) (bus (snd (c w))).

(** The device with another brightness level. *)
Definition with_brightness (d : TM1637) (level : Z) : TM1637 :=
  {| cls := cls d; _brightness := level; _digits := _digits d |}.

(** ** Reading the encoders as folds

    The two definitions below say what the encoders are meant to compute;
    [encode_string_plain_each] and [encode_string_decimal_fold] show that the
    loops over a preallocated bytearray compute just that. *)

(** Every character through [encode_char], in order. *)
Fixpoint encode_each (cs : list ascii) : result (list Z) :=
  match cs with
  | [] => Ok []
  | c :: cs' =>
      let? v := encode_char c in
      let? vs := encode_each cs' in
      Ok (v :: vs)
  end.

(** Set the decimal point (or colon) bit of a segment byte. *)
Definition or_msb (b : Z) : Z := Z.lor b 0x80.

(** Left to right over the characters with the output [out] produced so
    far: a dot after at least one output byte sets the point of the last
    byte, any other character adds its segment byte. *)
Fixpoint decimal_fold (cs : list ascii) (out : list Z) : result (list Z) :=
  match cs with
  | [] => Ok out
  | c :: cs' =>
      if Ascii.eqb c "." && (0 <? len out) then
        decimal_fold cs' (alter or_msb (length out - 1)%nat out)
      else
        let? v := encode_char c in
        decimal_fold cs' (out ++ [v])
  end.

Definition is_dot (c : ascii) : bool := Ascii.eqb c ".".

(** The number of dots of a string. *)
Definition count_dots (s : string) : nat :=
  length (List.filter is_dot (list_ascii_of_string s)).

Definition is_byte (v : Z) : Prop := 0 <= v < 256.

(** The integers [lo], [lo + 1], ... ([n] of them). *)
Definition Zseq (lo n : Z) : list Z :=
  map (fun i => lo + Z.of_nat i) (seq 0 (Z.to_nat n)).

(** [s] has no dot and every character of it encodes, into [width] bytes. *)
Definition renders (width : nat) (s : string) : bool :=
  forallb (fun c => negb (is_dot c)) (list_ascii_of_string s)
  && match encode_each (list_ascii_of_string s) with
     | Ok vs => Nat.eqb (length vs) width
     | Raise _ => false
     end.

(** The window that [scroll] shows at step [i]: [digits] bytes of the
    segments with [digits] blanks before and after, from offset [i]. *)
Definition window (digits : nat) (segments : list Z) (i : nat) : list Z :=
  take digits (drop i (replicate digits 0 ++ segments ++ replicate digits 0)).

(** A four digit display at full brightness on a bus that has seen nothing. *)
Definition quad : world :=
  {| device := {| cls := Plain; _brightness := 7; _digits := 4 |}; bus := [] |}.

(** A one digit display. *)
Definition single : world :=
  {| device := {| cls := Plain; _brightness := 7; _digits := 1 |}; bus := [] |}.

(** The least and the greatest value that [temperature] shows as a number
    on [digits] digits, as integers.  With two digits no column is left for
    the number: every value is below the first or above the second. *)
Definition temperature_low (digits : Z) : Z :=
  if digits <=? 2 then 1 else - 10 ^ (digits - 3) + 1.

Definition temperature_high (digits : Z) : Z := 10 ^ (digits - 2) - 1.

(** ** What the further properties speak of *)

(** The bounds that [__init__] and [brightness] enforce. *)
Definition valid (d : TM1637) : Prop :=
  0 <= _brightness d <= 7 /\ 1 <= _digits d <= 6.

(** The microseconds that a trace sleeps in [sleep_us]. *)
Definition total_us (evs : list event) : Z :=
  fold_right (fun e acc => match e with SleepUs n => n + acc | _ => acc end) 0 evs.

(** An event of the bit-banged protocol: a pin driven to 0 or 1, or one
    timing unit of sleep. *)
Definition protocol_event (e : event) : bool :=
  match e with
  | PinWrite _ v => (v =? 0) || (v =? 1)
  | SleepUs n => n =? TM1637_DELAY
  | _ => false
  end.

(** A segment byte without its point. *)
Definition clear_msb (b : Z) : Z := Z.land b 0x7F.

(** The computation leaves the fields of the device alone, whatever its
    outcome. *)
Definition keeps_device {A} (c : M A) : Prop :=
  forall w, device (snd (c w)) = device w.

(** [max(lo, min(x, hi))] *)
Definition clamp (lo hi x : Z) : Z := Z.max lo (Z.min x hi).

(** A character that both encoders take as it stands: not a dot, and known
    to [encode_char]. *)
Definition encodable (c : ascii) : bool :=
  negb (is_dot c)
  && match encode_char c with Ok _ => true | Raise _ => false end.

(** The table entry for the digit of value [d]. *)
Definition digit_segment (d : Z) : Z := nth (Z.to_nat d) _SEGMENTS 0.

(** Both digits of a value from 0 to 99 encode to their table entries. *)
Definition two_digits_ok (n : Z) : bool :=
  match encode_each (list_ascii_of_string (format_d_right "0" 2 n)) with
  | Ok [a; b] => (a =? digit_segment (n / 10)) && (b =? digit_segment (n mod 10))
  | _ => false
  end.

(** ** The two lines as the chip sees them *)

(** The levels of clock and data line after [evs], from the levels [clk]
    and [dio]. *)
Fixpoint lines (clk dio : Z) (evs : list event) : Z * Z :=
  match evs with
  | [] => (clk, dio)
  | PinWrite CLK v :: evs' | PinInit CLK v :: evs' => lines v dio evs'
  | PinWrite DIO v :: evs' | PinInit DIO v :: evs' => lines clk v evs'
  | _ :: evs' => lines clk dio evs'
  end.

(** The data line falling while the clock is high starts a frame, the data
    line rising while the clock is high ends one. *)
Inductive condition : Type := Start | Stop.

Definition edge (clk dio v : Z) : list condition :=
  if (clk =? 1) && (dio =? 1) && (v =? 0) then [Start]
  else if (clk =? 1) && (dio =? 0) && (v =? 1) then [Stop]
  else [].

(** The start and stop conditions that [evs] puts on the lines, in order. *)
Fixpoint conditions (clk dio : Z) (evs : list event) : list condition :=
  match evs with
  | [] => []
  | PinWrite CLK v :: evs' | PinInit CLK v :: evs' => conditions v dio evs'
  | PinWrite DIO v :: evs' | PinInit DIO v :: evs' =>
      edge clk dio v ++ conditions clk v evs'
  | _ :: evs' => conditions clk dio evs'
  end.

(** * Properties *)

(** ** The model on the examples of the documentation *)

Example encode_char_A : encode_char "A" = Ok 0x77.
Proof. reflexivity. Qed.

Example encode_char_dot : encode_char "." = Raise (ValueError "Character out of range: 46 '.'").
Proof. reflexivity. Qed.

Example encode_string_decimal_ex : encode_string Decimal "1.2" = Ok [0x86; 0x5B].
Proof. reflexivity. Qed.

Example format_examples :
  format_d_right "0" 2 (-5) = "-5"%string /\
  format_d_right "0" 2 5 = "05"%string /\
  format_d_right " " 2 (-9) = "-9"%string /\
  format_x_zero 4 0x12345 = "12345"%string /\
  format_x_zero 4 0xab = "00ab"%string /\
  format_d 0 = "0"%string /\ format_d 1203 = "1203"%string.
Proof. repeat split; reflexivity. Qed.

Example number_clamps :
  encode_string Plain "9999" = Ok [0x6F; 0x6F; 0x6F; 0x6F]
  /\ number 12345 quad = write [0x6F; 0x6F; 0x6F; 0x6F] 0 quad
  /\ encode_string Plain "-999" = Ok [0x40; 0x6F; 0x6F; 0x6F]
  /\ number (-5000) quad = write [0x40; 0x6F; 0x6F; 0x6F] 0 quad.
Proof. repeat split; reflexivity. Qed.

Example hour_minute_colon :
  encode_string Plain "2561" = Ok [0x5B; 0x6D; 0x7D; 0x06]
  /\ hour_minute 25 61 true quad = write [0x5B; 0xED; 0x7D; 0x06] 0 quad
  /\ numbers 25 61 true quad = hour_minute 25 61 true quad.
Proof. repeat split; reflexivity. Qed.

Example encode_digit_hex : encode_digit 0x1f = Ok 0x71.
Proof. reflexivity. Qed.

(** ** Running the bus layer *)

Lemma extend_nil w : extend w [] = w.
Proof. destruct w; unfold extend; simpl. by rewrite app_nil_r. Qed.

Lemma extend_extend w a b : extend (extend w a) b = extend w (a ++ b).
Proof. unfold extend; simpl. by rewrite app_assoc. Qed.

Lemma device_extend w evs : device (extend w evs) = device w.
Proof. reflexivity. Qed.

Lemma bus_extend w evs : bus (extend w evs) = bus w ++ evs.
Proof. reflexivity. Qed.

Lemma emit_run e w : emit e w = (Ok tt, extend w [e]).
Proof. reflexivity. Qed.

(** Sequencing after a computation whose outcome is known. *)
Lemma bind_run {A B} (c : M A) (k : A -> M B) w a w' :
  c w = (Ok a, w') -> bind c k w = k a w'.
Proof. intros H. unfold bind. by rewrite H. Qed.

Lemma bind_raise {A B} (c : M A) (k : A -> M B) w e w' :
  c w = (Raise e, w') -> bind c k w = (Raise e, w').
Proof. intros H. unfold bind. by rewrite H. Qed.

(** A loop whose body only emits events emits them in order. *)
Lemma for_each_run_in {A} (body : A -> M unit) (f : A -> list event) l :
  (forall x w, In x l -> body x w = (Ok tt, extend w (f x))) ->
  forall w, for_each l body w = (Ok tt, extend w (flat_map f l)).
Proof.
  induction l as [|x l IH]; intros Hbody w; simpl.
  - by rewrite extend_nil.
  - rewrite (bind_run _ _ _ _ _ (Hbody x w (or_introl eq_refl))), IH.
    + by rewrite extend_extend.
    + intros y w' Hy. apply Hbody. by right.
Qed.

Lemma for_each_run {A} (body : A -> M unit) (f : A -> list event) l :
  (forall x w, body x w = (Ok tt, extend w (f x))) ->
  forall w, for_each l body w = (Ok tt, extend w (flat_map f l)).
Proof. intros Hbody. apply for_each_run_in. intros x w _. apply Hbody. Qed.

Lemma land_shiftr_bit b i : 0 <= i -> Z.land (Z.shiftr b i) 1 = Z.b2z (Z.testbit b i).
Proof.
  intros Hi. change 1 with (Z.ones 1).
  rewrite Z.land_ones by lia. rewrite Z.shiftr_div_pow2 by lia.
  symmetry. apply Z.testbit_spec'. exact Hi.
Qed.

Ltac run_emits :=
  repeat (rewrite (bind_run _ _ _ _ _ (emit_run _ _)); rewrite ?extend_extend);
  rewrite ?emit_run, ?extend_extend.

Lemma _start_run w : _start w = (Ok tt, extend w start_events).
Proof. unfold _start, dio, clk, sleep_us. run_emits. reflexivity. Qed.

Lemma _stop_run w : _stop w = (Ok tt, extend w stop_events).
Proof. unfold _stop, dio, clk, sleep_us. run_emits. reflexivity. Qed.

Lemma bit_body_run b i w :
  0 <= i ->
  (dio (Z.land (Z.shiftr b i) 1) ;; sleep_us TM1637_DELAY ;; clk 1 ;;
   sleep_us TM1637_DELAY ;; clk 0 ;; sleep_us TM1637_DELAY) w
  = (Ok tt, extend w (bit_events (Z.testbit b i))).
Proof.
  intros Hi. unfold dio, clk, sleep_us. run_emits.
  rewrite land_shiftr_bit by exact Hi. reflexivity.
Qed.

Lemma _write_byte_run b w : _write_byte b w = (Ok tt, extend w (byte_events b)).
Proof.
  unfold _write_byte.
  change (range 8) with [0; 1; 2; 3; 4; 5; 6; 7].
  assert (Hbody : forall i w', In i [0; 1; 2; 3; 4; 5; 6; 7] ->
            (dio (Z.land (Z.shiftr b i) 1) ;; sleep_us TM1637_DELAY ;; clk 1 ;;
             sleep_us TM1637_DELAY ;; clk 0 ;; sleep_us TM1637_DELAY) w'
            = (Ok tt, extend w' (bit_events (Z.testbit b i)))).
  { intros i w' Hi. apply bit_body_run. simpl in Hi. lia. }
  rewrite (bind_run _ _ _ _ _ (for_each_run_in _ _ _ Hbody w)).
  unfold dio, clk, sleep_us. run_emits.
  unfold byte_events. cbn [flat_map]. rewrite <- !app_assoc. reflexivity.
Qed.

Lemma _write_data_cmd_run w :
  _write_data_cmd w = (Ok tt, extend w data_cmd_events).
Proof.
  unfold _write_data_cmd.
  rewrite (bind_run _ _ _ _ _ (_start_run _)).
  rewrite (bind_run _ _ _ _ _ (_write_byte_run _ _)).
  rewrite _stop_run, !extend_extend. reflexivity.
Qed.

Lemma _write_dsp_ctrl_run w :
  _write_dsp_ctrl w = (Ok tt, extend w (dsp_ctrl_events (_brightness (device w)))).
Proof.
  unfold _write_dsp_ctrl.
  rewrite (bind_run _ _ _ _ _ (eq_refl : get_self w = (Ok (device w), w))).
  rewrite (bind_run _ _ _ _ _ (_start_run _)).
  rewrite (bind_run _ _ _ _ _ (_write_byte_run _ _)).
  rewrite _stop_run, !extend_extend. reflexivity.
Qed.

(** [write] at a valid position: everything is transmitted. *)
Lemma write_run segments pos w :
  0 <= pos < _digits (device w) ->
  write segments pos w
  = (Ok tt, extend w (write_events (_brightness (device w)) segments pos)).
Proof.
  intros Hpos. unfold write.
  rewrite (bind_run _ _ _ _ _ (eq_refl : get_self w = (Ok (device w), w))).
  replace ((0 <=? pos) && (pos <? _digits (device w))) with true
    by (symmetry; apply andb_true_iff; split; [apply Z.leb_le | apply Z.ltb_lt]; lia).
  cbn [negb].
  rewrite (bind_run _ _ _ _ _ (_write_data_cmd_run _)).
  rewrite (bind_run _ _ _ _ _ (_start_run _)).
  rewrite (bind_run _ _ _ _ _ (_write_byte_run _ _)).
  rewrite (bind_run _ _ _ _ _ (for_each_run _ byte_events _ _write_byte_run _)).
  rewrite (bind_run _ _ _ _ _ (_stop_run _)).
  rewrite _write_dsp_ctrl_run, !extend_extend, !device_extend.
  unfold write_events. rewrite <- ?app_assoc. reflexivity.
Qed.

(** [write] at an invalid position: nothing happens but the exception. *)
Lemma write_raise segments pos w :
  pos < 0 \/ _digits (device w) <= pos ->
  write segments pos w = (Raise (ValueError "Position out of range"), w).
Proof.
  intros Hpos. unfold write.
  rewrite (bind_run _ _ _ _ _ (eq_refl : get_self w = (Ok (device w), w))).
  replace ((0 <=? pos) && (pos <? _digits (device w))) with false; [reflexivity|].
  symmetry. apply andb_false_iff.
  destruct Hpos; [left; apply Z.leb_gt | right; apply Z.ltb_ge]; lia.
Qed.

Lemma emitted_extend {A} (c : M A) w r evs :
  c w = (r, extend w evs) -> emitted c w = evs.
Proof.
  intros H. unfold emitted. rewrite H. simpl.
  by rewrite drop_app_length.
Qed.

Lemma emitted_same {A} (c : M A) w r : c w = (r, w) -> emitted c w = [].
Proof.
  intros H. unfold emitted. rewrite H. simpl. apply drop_all.
Qed.

(** ** Bus protocol layer *)

Lemma byte_of_testbits b :
  byte_of_bits [Z.testbit b 0; Z.testbit b 1; Z.testbit b 2; Z.testbit b 3;
                Z.testbit b 4; Z.testbit b 5; Z.testbit b 6; Z.testbit b 7]
  = b mod 256.
Proof.
  unfold byte_of_bits, fold_right.
  rewrite !Z.testbit_spec' by lia.
  change (2 ^ 0) with 1. change (2 ^ 1) with 2. change (2 ^ 2) with (2 * 2).
  change (2 ^ 3) with (2 * 2 * 2). change (2 ^ 4) with (2 * 2 * 2 * 2).
  change (2 ^ 5) with (2 * 2 * 2 * 2 * 2).
  change (2 ^ 6) with (2 * 2 * 2 * 2 * 2 * 2).
  change (2 ^ 7) with (2 * 2 * 2 * 2 * 2 * 2 * 2).
  rewrite Z.div_1_r.
  rewrite <- !Z.div_div by lia.
  set (q1 := b / 2). set (q2 := q1 / 2). set (q3 := q2 / 2). set (q4 := q3 / 2).
  set (q5 := q4 / 2). set (q6 := q5 / 2). set (q7 := q6 / 2).
  assert (H8 : b / 256 = q7 / 2).
  { subst q7 q6 q5 q4 q3 q2 q1. rewrite !Z.div_div by lia. reflexivity. }
  rewrite (Z.mod_eq b 256) by lia. rewrite H8.
  rewrite (Z.mod_eq b 2), (Z.mod_eq q1 2), (Z.mod_eq q2 2), (Z.mod_eq q3 2),
    (Z.mod_eq q4 2), (Z.mod_eq q5 2), (Z.mod_eq q6 2), (Z.mod_eq q7 2) by lia.
  fold q1 q2 q3 q4 q5 q6 q7. lia.
Qed.

(** C4.  For every byte [b] (indeed every integer), [_write_byte b] cannot
    fail and puts on the bus exactly: for bit 0, then bit 1, ... then bit 7
    of [b], the data line set to that bit, a 10 us wait, clock high, wait,
    clock low, wait; then one more clock pulse low, wait, high, wait, low,
    wait.  No event reads a pin, and the eight levels, first one least
    significant, spell [b] modulo 256. *)
Theorem write_byte_lsb_first_with_ack :
  forall (b : Z) (w : world),
    _write_byte b w
    = (Ok tt,
       extend w
         (bit_events (Z.testbit b 0) ++ bit_events (Z.testbit b 1) ++
          bit_events (Z.testbit b 2) ++ bit_events (Z.testbit b 3) ++
          bit_events (Z.testbit b 4) ++ bit_events (Z.testbit b 5) ++
          bit_events (Z.testbit b 6) ++ bit_events (Z.testbit b 7) ++
          [PinWrite CLK 0; SleepUs TM1637_DELAY;
           PinWrite CLK 1; SleepUs TM1637_DELAY;
           PinWrite CLK 0; SleepUs TM1637_DELAY]))
    /\ (forall level,
          bit_events level
          = [PinWrite DIO (Z.b2z level); SleepUs TM1637_DELAY;
             PinWrite CLK 1; SleepUs TM1637_DELAY;
             PinWrite CLK 0; SleepUs TM1637_DELAY])
    /\ forallb (fun e => negb (is_read e)) (emitted (_write_byte b) w) = true
    /\ byte_of_bits [Z.testbit b 0; Z.testbit b 1; Z.testbit b 2; Z.testbit b 3;
                     Z.testbit b 4; Z.testbit b 5; Z.testbit b 6; Z.testbit b 7]
       = b mod 256.
Proof.
  intros b w. split; [apply _write_byte_run|]. split; [reflexivity|].
  split; [|apply byte_of_testbits].
  rewrite (emitted_extend _ _ _ _ (_write_byte_run b w)). reflexivity.
Qed.

(** C3.  [write] with [pos < 0] or [pos >= digits] raises the out-of-range
    [ValueError] and leaves the world as it found it: the call puts no event
    on the bus. *)
Theorem write_bad_position_no_transmission :
  forall (segments : list Z) (pos : Z) (w : world),
    pos < 0 \/ _digits (device w) <= pos ->
    write segments pos w = (Raise (ValueError "Position out of range"), w)
    /\ emitted (write segments pos) w = [].
Proof.
  intros segments pos w Hpos.
  pose proof (write_raise segments pos w Hpos) as H.
  split; [exact H|]. exact (emitted_same _ _ _ H).
Qed.

Lemma write_bad_position_no_transmission_witness :
  write [0x3F; 0x06] 4 {| device := mkTM1637 Plain 7 4; bus := [] |}
  = (Raise (ValueError "Position out of range"),
     {| device := mkTM1637 Plain 7 4; bus := [] |})
  /\ emitted (write [0x3F; 0x06] 4) {| device := mkTM1637 Plain 7 4; bus := [] |} = [].
Proof.
  apply (write_bad_position_no_transmission [0x3F; 0x06] 4
           {| device := mkTM1637 Plain 7 4; bus := [] |}).
  right. simpl. lia.
Defined.

(** ** Session management *)

Lemma brightness_set_run v w :
  0 <= v <= 7 ->
  brightness (Some v) w
  = (Ok None,
     extend {| device := with_brightness (device w) v; bus := bus w |}
       (data_cmd_events ++ dsp_ctrl_events v)).
Proof.
  intros Hv. unfold brightness.
  rewrite (bind_run _ _ _ _ _ (eq_refl : get_self w = (Ok (device w), w))).
  replace ((0 <=? v) && (v <=? 7)) with true
    by (symmetry; apply andb_true_iff; split; apply Z.leb_le; lia).
  cbn [negb].
  rewrite (bind_run _ _ _ _ _
    (eq_refl : put_self (with_brightness (device w) v) w
               = (Ok tt, {| device := with_brightness (device w) v; bus := bus w |}))).
  rewrite (bind_run _ _ _ _ _ (_write_data_cmd_run _)).
  rewrite (bind_run _ _ _ _ _ (_write_dsp_ctrl_run _)).
  rewrite !extend_extend. reflexivity.
Qed.

Lemma brightness_set_raise v w :
  v < 0 \/ 7 < v ->
  brightness (Some v) w = (Raise (ValueError "Brightness out of range"), w).
Proof.
  intros Hv. unfold brightness.
  rewrite (bind_run _ _ _ _ _ (eq_refl : get_self w = (Ok (device w), w))).
  replace ((0 <=? v) && (v <=? 7)) with false; [reflexivity|].
  symmetry. apply andb_false_iff.
  destruct Hv; [left; apply Z.leb_gt | right; apply Z.leb_gt]; lia.
Qed.

(** C6.  Setting the brightness to [b] with [0 <= b <= 7] succeeds, stores
    [b] (the getter then returns it) and re-issues the data command and the
    display control with the new level; with [b < 0] or [b > 7] it raises the
    [ValueError] "Brightness out of range" and the stored level, like the
    rest of the world, is what it was. *)
Theorem brightness_range :
  forall (b : Z) (w : world),
    (0 <= b <= 7 ->
       fst (brightness (Some b) w) = Ok None
       /\ _brightness (device (snd (brightness (Some b) w))) = b
       /\ fst (brightness None (snd (brightness (Some b) w))) = Ok (Some b)
       /\ emitted (brightness (Some b)) w = data_cmd_events ++ dsp_ctrl_events b)
    /\ (b < 0 \/ 7 < b ->
       brightness (Some b) w = (Raise (ValueError "Brightness out of range"), w)
       /\ _brightness (device (snd (brightness (Some b) w))) = _brightness (device w)).
Proof.
  intros b w. split.
  - intros Hb. pose proof (brightness_set_run b w Hb) as H.
    rewrite H. repeat split.
    unfold emitted. rewrite H. simpl. by rewrite drop_app_length.
  - intros Hb. rewrite (brightness_set_raise b w Hb). split; reflexivity.
Qed.

Lemma brightness_range_witness :
  (fst (brightness (Some 3) {| device := mkTM1637 Plain 7 4; bus := [] |}) = Ok None
   /\ _brightness (device (snd (brightness (Some 3)
        {| device := mkTM1637 Plain 7 4; bus := [] |}))) = 3)
  /\ brightness (Some 8) {| device := mkTM1637 Plain 7 4; bus := [] |}
     = (Raise (ValueError "Brightness out of range"),
        {| device := mkTM1637 Plain 7 4; bus := [] |}).
Proof.
  pose proof (brightness_range 3 {| device := mkTM1637 Plain 7 4; bus := [] |}) as H3.
  pose proof (brightness_range 8 {| device := mkTM1637 Plain 7 4; bus := [] |}) as H8.
  split.
  - destruct H3 as [H3 _]. destruct (H3 ltac:(lia)) as (Ha & Hb & _). split; assumption.
  - destruct H8 as [_ H8]. destruct (H8 ltac:(lia)) as [Ha _]. exact Ha.
Defined.

(** ** Sequences *)

Lemma norm_index_in n i :
  0 <= i < Z.of_nat n -> norm_index n i = Ok (Z.to_nat i).
Proof.
  intros Hi. unfold norm_index.
  destruct (Z.ltb_spec i 0); [lia|].
  destruct (Z.leb_spec 0 i); [|lia].
  destruct (Z.ltb_spec i (Z.of_nat n)); [|lia]. reflexivity.
Qed.

Lemma getitem_lookup (a : list Z) i v :
  0 <= i -> a !! Z.to_nat i = Some v -> getitem a i = Ok v.
Proof.
  intros Hi Hv. unfold getitem.
  rewrite norm_index_in.
  - simpl. by rewrite Hv.
  - apply lookup_lt_Some in Hv. lia.
Qed.

Lemma bytearray_setitem_in (a : list Z) i v :
  0 <= i < len a -> 0 <= v < 256 ->
  bytearray_setitem a i v = Ok (<[Z.to_nat i := v]> a).
Proof.
  intros Hi Hv. unfold bytearray_setitem.
  rewrite norm_index_in by exact Hi. simpl.
  destruct (Z.leb_spec 0 v); [|lia].
  destruct (Z.ltb_spec v 256); [|lia]. reflexivity.
Qed.

(** ** Character encoding *)

(** Every segment that [encode_char] returns is a byte. *)
Lemma encode_char_byte c v : encode_char c = Ok v -> 0 <= v < 256.
Proof.
  destruct c as [[] [] [] [] [] [] [] []]; vm_compute; intros H;
    inversion H; split; congruence.
Qed.

Lemma encode_char_dot_raise :
  encode_char "." = Raise (ValueError "Character out of range: 46 '.'").
Proof. reflexivity. Qed.

Lemma getitem_SEGMENTS i :
  0 <= i <= 38 -> exists v, _SEGMENTS !! Z.to_nat i = Some v /\ getitem _SEGMENTS i = Ok v.
Proof.
  intros Hi.
  destruct (lookup_lt_is_Some_2 _SEGMENTS (Z.to_nat i)) as [v Hv].
  { change (length _SEGMENTS) with 39%nat. lia. }
  exists v. split; [exact Hv|]. apply getitem_lookup; [lia|exact Hv].
Qed.

(** C5.  [encode_char] on its domain returns the table entry: the digit of
    value [d] entry [d]; the [k]-th letter, upper or lower case, entry
    [10 + k]; space entry 36, dash entry 37, star entry 38.  On any other
    character it raises the [ValueError] whose message is built from the
    ordinal in decimal and the character itself. *)
Theorem encode_char_domain :
  forall c : ascii,
    (forall d, 0 <= d <= 9 -> ord c = 48 + d ->
       exists v, _SEGMENTS !! Z.to_nat d = Some v /\ encode_char c = Ok v)
    /\ (forall k, 0 <= k <= 25 -> ord c = 65 + k \/ ord c = 97 + k ->
       exists v, _SEGMENTS !! Z.to_nat (10 + k) = Some v /\ encode_char c = Ok v)
    /\ (c = " "%char ->
       exists v, _SEGMENTS !! 36%nat = Some v /\ encode_char c = Ok v)
    /\ (c = "-"%char ->
       exists v, _SEGMENTS !! 37%nat = Some v /\ encode_char c = Ok v)
    /\ (c = "*"%char ->
       exists v, _SEGMENTS !! 38%nat = Some v /\ encode_char c = Ok v)
    /\ (~ (48 <= ord c <= 57 \/ 65 <= ord c <= 90 \/ 97 <= ord c <= 122
           \/ ord c = 32 \/ ord c = 45 \/ ord c = 42) ->
       encode_char c
       = Raise (ValueError
           (String.append "Character out of range: "
              (String.append (format_d (ord c))
                 (String.append " '" (String c "'")))))).
Proof.
  intros c. unfold encode_char. set (o := ord c).
  repeat split.
  - intros d Hd Ho.
    destruct (getitem_SEGMENTS d ltac:(lia)) as (v & Hv & Hg). exists v.
    split; [exact Hv|].
    repeat (match goal with
            | |- context [Z.eqb ?a ?b] => destruct (Z.eqb_spec a b); [lia|]
            | |- context [Z.leb ?a ?b] => destruct (Z.leb_spec a b)
            end; cbn [andb]); try lia.
    replace (o - 48) with d by lia. exact Hg.
  - intros k Hk Ho.
    destruct (getitem_SEGMENTS (10 + k) ltac:(lia)) as (v & Hv & Hg). exists v.
    split; [exact Hv|].
    repeat (match goal with
            | |- context [Z.eqb ?a ?b] => destruct (Z.eqb_spec a b); [lia|]
            | |- context [Z.leb ?a ?b] => destruct (Z.leb_spec a b)
            end; cbn [andb]); try lia.
    + replace (o - 55) with (10 + k) by lia. exact Hg.
    + replace (o - 87) with (10 + k) by lia. exact Hg.
  - intros ->. exists 0x00. split; reflexivity.
  - intros ->. exists 0x40. split; reflexivity.
  - intros ->. exists 0x63. split; reflexivity.
  - intros Hout.
    repeat (match goal with
            | |- context [Z.eqb ?a ?b] => destruct (Z.eqb_spec a b); [lia|]
            | |- context [Z.leb ?a ?b] => destruct (Z.leb_spec a b)
            end; cbn [andb]); try lia; reflexivity.
Qed.

Lemma encode_char_domain_witness :
  (exists v, _SEGMENTS !! 7%nat = Some v /\ encode_char "7" = Ok v)
  /\ (exists v, _SEGMENTS !! 12%nat = Some v /\ encode_char "c" = Ok v)
  /\ (exists v, _SEGMENTS !! 12%nat = Some v /\ encode_char "C" = Ok v)
  /\ encode_char "." = Raise (ValueError "Character out of range: 46 '.'").
Proof.
  destruct (encode_char_domain "7") as (H7 & _).
  destruct (encode_char_domain "c") as (_ & Hc & _).
  destruct (encode_char_domain "C") as (_ & HC & _).
  destruct (encode_char_domain ".") as (_ & _ & _ & _ & _ & Hdot).
  split; [exact (H7 7 ltac:(lia) eq_refl)|].
  split; [exact (Hc 2 ltac:(lia) (or_intror eq_refl))|].
  split; [exact (HC 2 ltac:(lia) (or_introl eq_refl))|].
  apply Hdot. change (ord ".") with 46. lia.
Defined.

(** ** String encoding *)

Lemma length_list_ascii_of_string s :
  length (list_ascii_of_string s) = String.length s.
Proof. induction s as [|c s IH]; simpl; congruence. Qed.

Lemma length_string_of_list_ascii l :
  String.length (string_of_list_ascii l) = length l.
Proof. induction l as [|c l IH]; simpl; congruence. Qed.

Lemma list_ascii_of_string_app s1 s2 :
  list_ascii_of_string (String.append s1 s2)
  = list_ascii_of_string s1 ++ list_ascii_of_string s2.
Proof. induction s1 as [|c s1 IH]; simpl; congruence. Qed.

Lemma or_msb_byte b : is_byte b -> is_byte (or_msb b).
Proof.
  unfold is_byte, or_msb. intros [Hlo Hhi].
  assert (H0 : 0 <= Z.lor b 128) by (apply Z.lor_nonneg; lia).
  split; [exact H0|].
  destruct (Z.eq_dec (Z.lor b 128) 0) as [->|Hne]; [lia|].
  change 256 with (2 ^ 8). apply Z.log2_lt_pow2; [lia|].
  rewrite Z.log2_lor by lia. change (Z.log2 128) with 7.
  destruct (Z.eq_dec b 0) as [->|Hb]; [simpl; lia|].
  assert (Z.log2 b < 8) by (apply Z.log2_lt_pow2; simpl; lia).
  lia.
Qed.

Lemma insert_as_alter {A} (f : A -> A) (l : list A) i x :
  l !! i = Some x -> <[i := f x]> l = alter f i l.
Proof.
  revert i. induction l as [|y l IH]; intros [|i] H; simpl in *;
    try discriminate.
  - by inversion H.
  - f_equal. by apply IH.
Qed.

(** The plain loop fills the bytearray slot by slot. *)
Lemma encode_loop_each cs :
  forall done : list Z,
    encode_loop cs (len done) (done ++ replicate (length cs) 0)
    = let? vs := encode_each cs in Ok (done ++ vs).
Proof.
  induction cs as [|c cs IH]; intros done; simpl.
  - reflexivity.
  - destruct (encode_char c) as [v|e] eqn:Hc; simpl; [|reflexivity].
    pose proof (encode_char_byte _ _ Hc) as Hv.
    rewrite bytearray_setitem_in; [|unfold len; rewrite length_app; simpl; lia|exact Hv].
    simpl. unfold len. rewrite Nat2Z.id.
    rewrite insert_app_r_alt by lia. rewrite Nat.sub_diag. simpl.
    rewrite (cons_middle v done (replicate (length cs) 0)), app_assoc.
    replace (Z.of_nat (length done) + 1) with (len (done ++ [v]))
      by (unfold len; rewrite length_app; simpl; lia).
    rewrite IH.
    destruct (encode_each cs); simpl; [|reflexivity].
    by rewrite <- app_assoc.
Qed.

Lemma encode_string_plain_each s :
  encode_string_plain s = encode_each (list_ascii_of_string s).
Proof.
  unfold encode_string_plain, bytearray, list_repeat.
  rewrite Nat2Z.id, <- length_list_ascii_of_string.
  pose proof (encode_loop_each (list_ascii_of_string s) []) as H.
  unfold len in H. simpl in H. change (Z.of_nat 0) with 0 in H. rewrite H.
  by destruct (encode_each _).
Qed.

Lemma encode_each_length cs vs : encode_each cs = Ok vs -> length vs = length cs.
Proof.
  revert vs. induction cs as [|c cs IH]; intros vs; simpl.
  - intros H. by inversion H.
  - destruct (encode_char c); simpl; [|discriminate].
    destruct (encode_each cs) as [vs'|]; simpl; [|discriminate].
    intros H. inversion H. simpl. f_equal. by apply IH.
Qed.

(** The decimal loop: [j] is the number of bytes produced, the slots from
    [j] on are still blank, one for each character that is not a dot. *)
Lemma encode_decimal_loop_fold cs :
  forall done : list Z,
    Forall is_byte done ->
    encode_decimal_loop cs (len done)
      (done ++ replicate (length (List.filter (fun c => negb (Ascii.eqb c ".")) cs)) 0)
    = decimal_fold cs done.
Proof.
  induction cs as [|c cs IH]; intros done Hdone; simpl.
  - by rewrite app_nil_r.
  - destruct (Ascii.eqb c "." && (0 <? len done)) eqn:Hdot.
    + apply andb_true_iff in Hdot as [Hc Hj].
      apply Z.ltb_lt in Hj. unfold len in Hj. rewrite Hc. simpl.
      destruct (lookup_lt_is_Some_2 done (length done - 1)) as [old Hold]; [lia|].
      assert (Hidx : Z.to_nat (len done - 1) = (length done - 1)%nat)
        by (unfold len; lia).
      rewrite (getitem_lookup _ _ old).
      2: unfold len; lia.
      2: { rewrite Hidx. rewrite lookup_app_l by lia. exact Hold. }
      simpl.
      assert (Hb : is_byte old).
      { eapply Forall_lookup_1; eauto. }
      rewrite bytearray_setitem_in.
      2: unfold len; rewrite length_app; lia.
      2: exact (or_msb_byte _ Hb).
      simpl. rewrite Hidx. rewrite insert_app_l by lia.
      change (Z.lor old TM1637_MSB) with (or_msb old).
      rewrite (insert_as_alter or_msb _ _ _ Hold).
      replace (len done) with (len (alter or_msb (length done - 1)%nat done))
        by (unfold len; by rewrite length_alter).
      apply IH. apply Forall_alter; [exact Hdone|].
      intros x _ Hx. by apply or_msb_byte.
    + destruct (encode_char c) as [v|e] eqn:Hc; simpl; [|reflexivity].
      assert (Hnd : Ascii.eqb c "." = false).
      { destruct (Ascii.eqb_spec c "."%char) as [->|]; [|reflexivity].
        rewrite encode_char_dot_raise in Hc. discriminate. }
      rewrite Hnd. simpl.
      pose proof (encode_char_byte _ _ Hc) as Hv.
      rewrite bytearray_setitem_in; [|unfold len; rewrite length_app; simpl; lia|exact Hv].
      simpl. unfold len. rewrite Nat2Z.id.
      rewrite insert_app_r_alt by lia. rewrite Nat.sub_diag. simpl.
      rewrite (cons_middle v done (replicate _ 0)), app_assoc.
      replace (Z.of_nat (length done) + 1) with (len (done ++ [v]))
        by (unfold len; rewrite length_app; simpl; lia).
      apply IH. apply Forall_app. split; [exact Hdone|]. by constructor.
Qed.

Lemma encode_string_decimal_fold s :
  encode_string_decimal s = decimal_fold (list_ascii_of_string s) [].
Proof.
  unfold encode_string_decimal, bytearray, list_repeat, remove_dots.
  rewrite Nat2Z.id, length_string_of_list_ascii.
  apply (encode_decimal_loop_fold (list_ascii_of_string s) []). constructor.
Qed.

Lemma decimal_fold_app cs1 cs2 :
  forall out,
    decimal_fold (cs1 ++ cs2) out
    = let? out1 := decimal_fold cs1 out in decimal_fold cs2 out1.
Proof.
  induction cs1 as [|c cs1 IH]; intros out; simpl; [reflexivity|].
  destruct (Ascii.eqb c "." && (0 <? len out)); [apply IH|].
  destruct (encode_char c); simpl; [apply IH|reflexivity].
Qed.

(** Every character but a dot takes one slot, a dot takes none. *)
Lemma decimal_fold_length cs :
  forall out r,
    decimal_fold cs out = Ok r ->
    (length r + length (List.filter is_dot cs) = length out + length cs)%nat.
Proof.
  induction cs as [|c cs IH]; intros out r; simpl.
  - intros H. inversion H. lia.
  - destruct (Ascii.eqb c "." && (0 <? len out)) eqn:Hdot.
    + apply andb_true_iff in Hdot as [Hc _]. unfold is_dot at 1. rewrite Hc.
      intros H. apply IH in H. rewrite length_alter in H. simpl. lia.
    + destruct (encode_char c) as [v|] eqn:Hv; simpl; [|discriminate].
      assert (Hnd : is_dot c = false).
      { unfold is_dot. destruct (Ascii.eqb_spec c "."%char) as [->|]; [|reflexivity].
        rewrite encode_char_dot_raise in Hv. discriminate. }
      rewrite Hnd. intros H. apply IH in H. rewrite length_app in H. simpl in H. lia.
Qed.

Lemma decimal_fold_grows cs :
  forall out r, decimal_fold cs out = Ok r -> (length out <= length r)%nat.
Proof.
  induction cs as [|c cs IH]; intros out r; simpl.
  - intros H. inversion H. lia.
  - destruct (Ascii.eqb c "." && (0 <? len out)).
    + intros H. apply IH in H. rewrite length_alter in H. exact H.
    + destruct (encode_char c); simpl; [|discriminate].
      intros H. apply IH in H. rewrite length_app in H. simpl in H. lia.
Qed.

Lemma decimal_fold_first c cs r :
  decimal_fold (c :: cs) [] = Ok r -> (1 <= length r)%nat.
Proof.
  simpl. rewrite andb_false_r.
  destruct (encode_char c); simpl; [|discriminate].
  intros H. apply decimal_fold_grows in H. simpl in H. exact H.
Qed.

(** Setting the point of a byte already produced commutes with the rest of
    the fold. *)
Lemma decimal_fold_alter cs k :
  forall out r,
    (k < length out)%nat ->
    decimal_fold cs out = Ok r ->
    decimal_fold cs (alter or_msb k out) = Ok (alter or_msb k r).
Proof.
  induction cs as [|c cs IH]; intros out r Hk; simpl.
  - intros H. by inversion H.
  - replace (len (alter or_msb k out)) with (len out)
      by (unfold len; by rewrite length_alter).
    destruct (Ascii.eqb c "." && (0 <? len out)).
    + intros H. rewrite length_alter.
      destruct (decide (k = (length out - 1)%nat)) as [->|Hne].
      * apply IH in H; [exact H|]. by rewrite length_alter.
      * rewrite list_alter_alter_ne by congruence.
        apply IH; [|exact H]. by rewrite length_alter.
    + destruct (encode_char c) as [v|]; simpl; [|discriminate].
      intros H. rewrite <- alter_app_l by exact Hk.
      apply IH; [|exact H]. rewrite length_app. lia.
Qed.

(** C7.  When the plain encoder succeeds its output is as long as the
    input.  When the decimal-point encoder succeeds its output is as long as
    the input less its dots, and a dot written after a non-empty part [s1] of
    the input takes no slot: it changes the output only by setting bit 0x80
    of the byte of the last character before it. *)
Theorem encode_string_lengths :
  forall (s : string) (segments : list Z),
    (encode_string Plain s = Ok segments -> length segments = String.length s)
    /\ (encode_string Decimal s = Ok segments ->
          length segments = (String.length s - count_dots s)%nat)
    /\ (forall s1 s2 : string,
          s = String.append s1 s2 -> s1 <> EmptyString ->
          encode_string Decimal s = Ok segments ->
          let j := (String.length s1 - count_dots s1)%nat in
          (1 <= j <= length segments)%nat
          /\ encode_string Decimal (String.append s1 (String "." s2))
             = Ok (alter (fun b => Z.lor b 0x80) (j - 1)%nat segments)
          /\ (exists old, segments !! (j - 1)%nat = Some old
                /\ alter (fun b => Z.lor b 0x80) (j - 1)%nat segments !! (j - 1)%nat
                   = Some (Z.lor old 0x80))
          /\ length (alter (fun b => Z.lor b 0x80) (j - 1)%nat segments)
             = length segments).
Proof.
  intros s segments. split; [|split].
  - simpl. rewrite encode_string_plain_each. intros H.
    apply encode_each_length in H. by rewrite length_list_ascii_of_string in H.
  - simpl. rewrite encode_string_decimal_fold. intros H.
    apply decimal_fold_length in H. simpl in H. unfold count_dots.
    rewrite <- length_list_ascii_of_string. lia.
  - intros s1 s2 -> Hs1. simpl. rewrite !encode_string_decimal_fold.
    rewrite !list_ascii_of_string_app. simpl.
    rewrite !decimal_fold_app. intros H.
    destruct (decimal_fold (list_ascii_of_string s1) []) as [out1|] eqn:H1;
      simpl in H; [|discriminate].
    assert (Hlen : (1 <= length out1)%nat).
    { destruct s1 as [|c s1]; [congruence|]. simpl in H1.
      exact (decimal_fold_first _ _ _ H1). }
    pose proof (decimal_fold_length _ _ _ H1) as Hj. simpl in Hj.
    rewrite length_list_ascii_of_string in Hj.
    assert (Hjj : (String.length s1 - count_dots s1)%nat = length out1)
      by (unfold count_dots; lia).
    rewrite Hjj.
    pose proof (decimal_fold_grows _ _ _ H) as Hgrow.
    split; [lia|]. simpl.
    replace (0 <? len out1) with true
      by (symmetry; apply Z.ltb_lt; unfold len; lia).
    split; [|split].
    + change (fun b => Z.lor b 128) with or_msb.
      apply decimal_fold_alter; [lia|exact H].
    + destruct (lookup_lt_is_Some_2 segments (length out1 - 1)) as [old Hold]; [lia|].
      exists old. split; [exact Hold|].
      rewrite list_lookup_alter_eq, Hold. reflexivity.
    + apply length_alter.
Qed.

Lemma encode_string_lengths_witness :
  length [0x77; 0x7C] = String.length "ab"
  /\ length [0x86; 0x5B] = (String.length "1.2" - count_dots "1.2")%nat
  /\ encode_string Decimal (String.append "1" (String "." "2"))
     = Ok (alter (fun b => Z.lor b 0x80) 0%nat [0x06; 0x5B]).
Proof.
  destruct (encode_string_lengths "ab" [0x77; 0x7C]) as (Hp & _).
  destruct (encode_string_lengths "1.2" [0x86; 0x5B]) as (_ & Hd & _).
  destruct (encode_string_lengths "12" [0x06; 0x5B]) as (_ & _ & Hi).
  split; [exact (Hp eq_refl)|]. split; [exact (Hd eq_refl)|].
  destruct (Hi "1"%string "2"%string eq_refl ltac:(discriminate) eq_refl)
    as (_ & He & _).
  exact He.
Defined.

(** C2 (as the code has it).  A string that starts with a dot is refused by
    the decimal-point encoder: the guard [j > 0] sends the dot on to
    [encode_char], which raises the [ValueError] for character 46. *)
Theorem encode_string_decimal_leading_dot :
  forall s : string,
    encode_string Decimal (String "." s)
    = Raise (ValueError "Character out of range: 46 '.'").
Proof. intros s. reflexivity. Qed.

(** The leading dot is not dropped: [".1"] raises while ["1"] encodes. *)
Lemma encode_string_decimal_leading_dot_counterexample :
  encode_string Decimal ".1" = Raise (ValueError "Character out of range: 46 '.'")
  /\ encode_string Decimal "1" = Ok [0x06]
  /\ ~ (exists segments, encode_string Decimal ".1" = Ok segments
                         /\ encode_string Decimal "1" = Ok segments).
Proof.
  split; [reflexivity|]. split; [reflexivity|].
  intros (segments & H & _). discriminate H.
Qed.

(** ** Strings without dots and numbers *)

Lemma In_Zseq lo n x : lo <= x < lo + n -> In x (Zseq lo n).
Proof.
  intros Hx. unfold Zseq. apply in_map_iff.
  exists (Z.to_nat (x - lo)). split; [lia|]. apply in_seq. lia.
Qed.

Lemma encode_each_bytes cs vs : encode_each cs = Ok vs -> Forall is_byte vs.
Proof.
  revert vs. induction cs as [|c cs IH]; intros vs; simpl.
  - intros H. inversion H. constructor.
  - destruct (encode_char c) as [v|] eqn:Hc; simpl; [|discriminate].
    destruct (encode_each cs) as [vs'|]; simpl; [|discriminate].
    intros H. inversion H. constructor; [|by apply IH].
    exact (encode_char_byte _ _ Hc).
Qed.

Lemma encode_each_app cs1 cs2 v1 v2 :
  encode_each cs1 = Ok v1 -> encode_each cs2 = Ok v2 ->
  encode_each (cs1 ++ cs2) = Ok (v1 ++ v2).
Proof.
  revert v1. induction cs1 as [|c cs1 IH]; intros v1; simpl.
  - intros H. by inversion H.
  - destruct (encode_char c); simpl; [|discriminate].
    destruct (encode_each cs1) as [vs|]; simpl; [|discriminate].
    intros H H2. inversion H. by rewrite (IH vs eq_refl H2).
Qed.

Lemma decimal_fold_no_dots cs :
  forallb (fun c => negb (is_dot c)) cs = true ->
  forall out, decimal_fold cs out = let? vs := encode_each cs in Ok (out ++ vs).
Proof.
  induction cs as [|c cs IH]; simpl; intros Hnd out.
  - by rewrite app_nil_r.
  - apply andb_true_iff in Hnd as [Hc Hcs]. unfold is_dot in Hc.
    destruct (Ascii.eqb c "."); [discriminate|]. simpl.
    destruct (encode_char c); simpl; [|reflexivity].
    rewrite (IH Hcs). destruct (encode_each cs); simpl; [|reflexivity].
    by rewrite <- app_assoc.
Qed.

(** Without dots both classes encode alike. *)
Lemma encode_string_renders k width s :
  renders width s = true ->
  exists vs, encode_string k s = Ok vs /\ length vs = width /\ Forall is_byte vs
             /\ encode_each (list_ascii_of_string s) = Ok vs.
Proof.
  unfold renders. intros H. apply andb_true_iff in H as [Hnd H].
  destruct (encode_each (list_ascii_of_string s)) as [vs|] eqn:He; [|discriminate].
  apply Nat.eqb_eq in H. exists vs.
  split; [|split; [exact H|split; [exact (encode_each_bytes _ _ He)|reflexivity]]].
  destruct k; simpl.
  - by rewrite encode_string_plain_each.
  - rewrite encode_string_decimal_fold, (decimal_fold_no_dots _ Hnd), He. reflexivity.
Qed.

Lemma renders_app w1 w2 s1 s2 :
  renders w1 s1 = true -> renders w2 s2 = true ->
  renders (w1 + w2) (String.append s1 s2) = true.
Proof.
  unfold renders. intros H1 H2.
  apply andb_true_iff in H1 as [Hn1 H1]. apply andb_true_iff in H2 as [Hn2 H2].
  rewrite list_ascii_of_string_app, forallb_app, Hn1, Hn2. simpl.
  destruct (encode_each (list_ascii_of_string s1)) as [v1|] eqn:He1; [|discriminate].
  destruct (encode_each (list_ascii_of_string s2)) as [v2|] eqn:He2; [|discriminate].
  rewrite (encode_each_app _ _ _ _ He1 He2), length_app.
  apply Nat.eqb_eq in H1, H2. apply Nat.eqb_eq. lia.
Qed.

(** Two columns, zero filled: every value from -9 to 99 fits exactly. *)
Lemma renders_two_digits n :
  -9 <= n <= 99 -> renders 2 (format_d_right "0" 2 n) = true.
Proof.
  intros Hn.
  assert (Hall : forallb (fun n => renders 2 (format_d_right "0" 2 n))
                   (Zseq (-9) 109) = true) by (vm_compute; reflexivity).
  rewrite forallb_forall in Hall. apply Hall. apply In_Zseq. lia.
Qed.

Lemma set_colon_alter segments :
  (2 <= length segments)%nat -> Forall is_byte segments ->
  set_colon segments = Ok (alter or_msb 1%nat segments).
Proof.
  intros Hlen Hbytes. unfold set_colon.
  destruct (lookup_lt_is_Some_2 segments 1) as [old Hold]; [lia|].
  rewrite (getitem_lookup _ _ old); [|lia|exact Hold]. simpl.
  rewrite bytearray_setitem_in.
  - change (Z.to_nat 1) with 1%nat. change (Z.lor old 128) with (or_msb old).
    by rewrite (insert_as_alter or_msb _ _ _ Hold).
  - unfold len. lia.
  - apply or_msb_byte. eapply Forall_lookup_1; eauto.
Qed.

Lemma lift_run {A} (r : result A) w : lift r w = (r, w).
Proof. reflexivity. Qed.

Lemma get_self_run w : get_self w = (Ok (device w), w).
Proof. reflexivity. Qed.

Lemma ret_run {A} (a : A) w : ret a w = (Ok a, w).
Proof. reflexivity. Qed.

Lemma hour_minute_run hour minute colon w :
  1 <= _digits (device w) ->
  exists segments,
    length segments = 4%nat
    /\ hour_minute hour minute colon w
       = (Ok tt, extend w (write_events (_brightness (device w)) segments 0)).
Proof.
  intros Hd. unfold hour_minute.
  rewrite (bind_run _ _ _ _ _ (get_self_run w)).
  destruct (encode_string_renders (cls (device w)) _ _
              (renders_app 2 2 _ _
                 (renders_two_digits (Z.max (-9) (Z.min hour 99)) ltac:(lia))
                 (renders_two_digits (Z.max (-9) (Z.min minute 99)) ltac:(lia))))
    as (vs & Hvs & Hlen & Hbytes & _).
  rewrite Hvs. rewrite (bind_run _ _ _ _ _ (lift_run _ _)).
  destruct colon.
  - rewrite (set_colon_alter vs) by (simpl in Hlen; first [lia|exact Hbytes]).
    rewrite (bind_run _ _ _ _ _ (lift_run _ _)).
    exists (alter or_msb 1%nat vs). split; [by rewrite length_alter|].
    apply write_run. lia.
  - rewrite (bind_run _ _ _ _ _ (ret_run _ _)).
    exists vs. split; [exact Hlen|]. apply write_run. lia.
Qed.

(** C10.  [write] does not look at the length of [segments]: at any valid
    position it succeeds for any sequence and sends the data command, the
    address byte, one byte frame for every element in order, stop and the
    display control.  [hour_minute] sends four segment bytes on every device,
    also one built with fewer than four digits. *)
Theorem write_ignores_length :
  (forall (segments : list Z) (pos : Z) (w : world),
     0 <= pos < _digits (device w) ->
     write segments pos w
     = (Ok tt,
        extend w
          (data_cmd_events ++
           start_events ++ byte_events (Z.lor 0xC0 pos) ++
           flat_map byte_events segments ++
           stop_events ++
           dsp_ctrl_events (_brightness (device w)))))
  /\ (forall (hour minute : Z) (colon : bool) (w : world),
        1 <= _digits (device w) ->
        exists segments,
          length segments = 4%nat
          /\ hour_minute hour minute colon w
             = (Ok tt, extend w (write_events (_brightness (device w)) segments 0))).
Proof.
  split.
  - intros segments pos w Hpos. exact (write_run segments pos w Hpos).
  - intros hour minute colon w Hd. exact (hour_minute_run hour minute colon w Hd).
Qed.

Lemma write_ignores_length_witness :
  write [1; 2; 3; 4; 5; 6; 7] 1 {| device := mkTM1637 Plain 7 2; bus := [] |}
  = (Ok tt,
     extend {| device := mkTM1637 Plain 7 2; bus := [] |}
       (write_events 7 [1; 2; 3; 4; 5; 6; 7] 1))
  /\ exists segments,
       length segments = 4%nat
       /\ hour_minute 12 34 true {| device := mkTM1637 Plain 7 1; bus := [] |}
          = (Ok tt,
             extend {| device := mkTM1637 Plain 7 1; bus := [] |}
               (write_events 7 segments 0)).
Proof.
  destruct write_ignores_length as [Hw Hh]. split.
  - apply (Hw [1; 2; 3; 4; 5; 6; 7] 1 {| device := mkTM1637 Plain 7 2; bus := [] |}).
    simpl. lia.
  - apply (Hh 12 34 true {| device := mkTM1637 Plain 7 1; bus := [] |}).
    simpl. lia.
Defined.

(** ** Rendering *)

(** C1 (what the code does).  On a four digit display [hex(0x12345)] masks
    with [(1 << 32) - 1], not with 16 bits: the value is kept whole, the
    string is ["12345"] and five segment bytes are written from position 0,
    where four digits of ["2345"] were to be expected. *)
Theorem hex_mask_is_eight_bits_per_digit :
  Z.shiftl 1 (8 * _digits (device quad)) - 1 = 0xFFFFFFFF
  /\ format_x_zero 4 (Z.land 0x12345 0xFFFFFFFF) = "12345"%string
  /\ format_x_zero 4 (Z.land 0x12345 0xFFFF) = "2345"%string
  /\ hex 0x12345 quad
     = (Ok tt, extend quad (write_events 7 [0x06; 0x5B; 0x4F; 0x66; 0x6D] 0))
  /\ encode_string Plain "2345" = Ok [0x5B; 0x4F; 0x66; 0x6D].
Proof.
  split; [reflexivity|]. split; [reflexivity|]. split; [reflexivity|].
  split; [|reflexivity].
  unfold hex. rewrite (bind_run _ _ _ _ _ (get_self_run quad)).
  change (encode_string (cls (device quad))
            (format_x_zero (_digits (device quad))
               (Z.land 74565 (Z.shiftl 1 (8 * _digits (device quad)) - 1))))
    with (Ok [0x06; 0x5B; 0x4F; 0x66; 0x6D]).
  rewrite (bind_run _ _ _ _ _ (lift_run _ _)).
  apply (write_run _ 0 quad). simpl. lia.
Qed.


(** C8 (what the code does).  [scroll("AB")] on a four digit display raises
    [TypeError] at [[0]*4 + segments] and writes no window at all, where
    seven window writes were to be expected. *)
Theorem scroll_text_type_error :
  encode_string Plain "AB" = Ok [0x77; 0x7C]
  /\ scroll (Text "AB") 250 quad = (Raise TypeError, quad)
  /\ emitted (scroll (Text "AB") 250) quad = [].
Proof.
  split; [reflexivity|]. split; reflexivity.
Qed.

Lemma for_each_run_device {A} (body : A -> M unit) (f : A -> list event) dev l :
  (forall x w, In x l -> device w = dev -> body x w = (Ok tt, extend w (f x))) ->
  forall w, device w = dev ->
            for_each l body w = (Ok tt, extend w (flat_map f l)).
Proof.
  induction l as [|x l IH]; intros Hbody w Hw; simpl.
  - by rewrite extend_nil.
  - rewrite (bind_run _ _ _ _ _ (Hbody x w (or_introl eq_refl) Hw)), IH.
    + by rewrite extend_extend.
    + intros y w' Hy. apply Hbody. by right.
    + exact Hw.
Qed.

Lemma In_range n i : In i (range n) -> 0 <= i < n.
Proof.
  unfold range. intros H. apply in_map_iff in H as (k & <- & Hk).
  apply in_seq in Hk. lia.
Qed.

Lemma length_range n : len (range n) = Z.max 0 n.
Proof. unfold len, range. rewrite length_map, length_seq. lia. Qed.

Lemma slice_window (l : list Z) (d i : Z) :
  0 <= d -> 0 <= i <= len l + d ->
  slice ((list_repeat 0 d ++ l) ++ list_repeat 0 d) (0 + i) (d + i)
  = window (Z.to_nat d) l (Z.to_nat i).
Proof.
  intros Hd Hi. unfold slice, window, list_repeat, slice_bound, len in *.
  rewrite !length_app, !length_replicate.
  destruct (Z.ltb_spec (0 + i) 0); [lia|].
  destruct (Z.ltb_spec (d + i) 0); [lia|].
  rewrite <- app_assoc. f_equal; [lia|]. f_equal. lia.
Qed.

Lemma window_length d (l : list Z) i :
  (i <= length l + d)%nat -> length (window d l i) = d.
Proof.
  intros Hi. unfold window.
  rewrite length_take, length_drop, !length_app, !length_replicate. lia.
Qed.

Lemma window_first d (l : list Z) : window d l 0 = replicate d 0.
Proof.
  unfold window. rewrite drop_0. apply take_app_length'. by rewrite length_replicate.
Qed.

Lemma window_last d (l : list Z) : window d l (length l + d) = replicate d 0.
Proof.
  unfold window. rewrite app_assoc.
  rewrite drop_app_length' by (rewrite length_app, length_replicate; lia).
  apply take_ge. by rewrite length_replicate.
Qed.

(** X21.  The sibling path of [scroll]: given a list of segments of length [n] it
    performs [n + digits + 1] writes at position 0, each followed by the
    sleep; write [i] sends the window at offset [i], which has [digits]
    bytes; the first and the last window are blank. *)
Lemma scroll_segments_windows (l : list Z) (delay : Z) (w : world) :
  1 <= _digits (device w) ->
  let d := Z.to_nat (_digits (device w)) in
  scroll (Segments l) delay w
  = (Ok tt,
     extend w
       (flat_map
          (fun i => write_events (_brightness (device w))
                      (window d l (Z.to_nat i)) 0 ++ [SleepMs delay])
          (range (len l + _digits (device w) + 1))))
  /\ len (range (len l + _digits (device w) + 1)) = len l + _digits (device w) + 1
  /\ (forall i, (i <= length l + d)%nat -> length (window d l i) = d)
  /\ window d l 0 = replicate d 0
  /\ window d l (length l + d) = replicate d 0.
Proof.
  intros Hd d. split; [|split; [|split; [|split]]].
  - unfold scroll. rewrite (bind_run _ _ _ _ _ (get_self_run w)).
    rewrite (bind_run _ _ _ _ _ (ret_run _ _)).
    cbn [list_add pyseq_len].
    rewrite (bind_run _ _ _ _ _ (lift_run _ _)).
    apply (for_each_run_device _ _ (device w)); [|reflexivity].
    intros i w' Hi Hw'. apply In_range in Hi. simpl in Hi.
    rewrite slice_window by lia.
    rewrite (bind_run _ _ _ _ _ (write_run _ 0 w' ltac:(rewrite Hw'; lia))).
    unfold sleep_ms. rewrite emit_run, extend_extend, Hw'. reflexivity.
  - rewrite length_range. unfold len. lia.
  - intros i Hi. by apply window_length.
  - apply window_first.
  - apply window_last.
Qed.

(** ** Temperature *)

Lemma digits_acc_longer fuel base n :
  forall acc,
    (String.length acc < String.length (digits_acc fuel base n acc))%nat.
Proof.
  revert n. induction fuel as [|fuel IH]; intros n acc; simpl; [lia|].
  destruct (n <? base); simpl; [lia|].
  specialize (IH (n / base) (String (digit_char (n mod base)) acc)).
  simpl in IH. lia.
Qed.

Lemma digits_str_two n : 10 <= n -> (2 <= String.length (digits_str 10 n))%nat.
Proof.
  intros Hn. unfold digits_str.
  destruct (Z.to_nat n) as [|fuel] eqn:E; [lia|]. simpl.
  destruct (Z.ltb_spec n 10); [lia|].
  pose proof (digits_acc_longer fuel 10 (n / 10)
                (String (digit_char (n mod 10)) EmptyString)) as H1.
  simpl in H1. lia.
Qed.

Lemma digits_str_three n : 100 <= n -> (3 <= String.length (digits_str 10 n))%nat.
Proof.
  intros Hn. unfold digits_str.
  destruct (Z.to_nat n) as [|[|fuel]] eqn:E; [lia|lia|].
  cbn [digits_acc].
  destruct (Z.ltb_spec n 10); [lia|].
  assert (Hq : 10 <= n / 10) by (apply Z.div_le_lower_bound; lia).
  destruct (Z.ltb_spec (n / 10) 10); [lia|].
  pose proof (digits_acc_longer fuel 10 (n / 10 / 10)
                (String (digit_char ((n / 10) mod 10))
                   (String (digit_char (n mod 10)) EmptyString))) as Hlen.
  simpl in Hlen. lia.
Qed.

(** On four digits the number has two columns; the values that need more
    are those from -10 down and from 100 up. *)
Lemma format_d_wider_than_two n :
  (2 < String.length (format_d n))%nat <-> n <= -10 \/ 100 <= n.
Proof.
  split.
  - intros Hlen.
    destruct (Z.le_gt_cases n (-10)) as [|Hlo]; [by left|].
    destruct (Z.le_gt_cases 100 n) as [|Hhi]; [by right|].
    exfalso.
    assert (Hall : forallb (fun n => Nat.leb (String.length (format_d n)) 2)
                     (Zseq (-9) 109) = true) by (vm_compute; reflexivity).
    rewrite forallb_forall in Hall.
    assert (Hin : In n (Zseq (-9) 109)) by (apply In_Zseq; lia).
    specialize (Hall n Hin).
    apply Nat.leb_le in Hall. lia.
  - intros [Hn|Hn]; unfold format_d.
    + destruct (Z.ltb_spec n 0); [|lia]. simpl.
      pose proof (digits_str_two (- n) ltac:(lia)). lia.
    + destruct (Z.ltb_spec n 0); [lia|].
      pose proof (digits_str_three n Hn). lia.
Qed.

Ltac solve_bound :=
  unfold temperature_low, temperature_high;
  repeat match goal with
         | |- context [pow10 ?e] =>
             let v := eval vm_compute in (pow10 e) in change (pow10 e) with v
         | |- context [10 ^ ?e] =>
             let v := eval vm_compute in (10 ^ e) in change (10 ^ e) with v
         | |- context [?a <=? 2] =>
             let v := eval vm_compute in (a <=? 2) in change (a <=? 2) with v
         end;
  unfold Qltb, Qle_bool; cbn;
  match goal with
  | |- negb (Z.leb ?a ?b) = Z.ltb ?c ?d =>
      destruct (Z.leb_spec a b), (Z.ltb_spec c d); simpl; try reflexivity; lia
  end.

Lemma temperature_low_cond d num :
  2 <= d <= 6 ->
  Qltb (inject_Z num) (Qplus (Qopp (pow10 (d - 3))) (inject_Z 1))
  = (num <? temperature_low d).
Proof.
  intros Hd.
  assert (Hcases : d = 2 \/ d = 3 \/ d = 4 \/ d = 5 \/ d = 6) by lia.
  destruct Hcases as [-> | [-> | [-> | [-> | ->]]]];
    solve_bound.
Qed.

Lemma temperature_high_cond d num :
  2 <= d <= 6 ->
  Qltb (Qminus (pow10 (d - 2)) (inject_Z 1)) (inject_Z num)
  = (temperature_high d <? num).
Proof.
  intros Hd.
  assert (Hcases : d = 2 \/ d = 3 \/ d = 4 \/ d = 5 \/ d = 6) by lia.
  destruct Hcases as [-> | [-> | [-> | [-> | ->]]]];
    solve_bound.
Qed.

Lemma str_prefix_all s n : Z.of_nat (String.length s) <= n -> str_prefix s n = s.
Proof.
  intros Hn. unfold str_prefix, slice_bound.
  destruct (Z.ltb_spec n 0); [lia|].
  rewrite take_ge by (rewrite length_list_ascii_of_string; lia).
  apply string_of_list_ascii_of_string.
Qed.

Lemma show_run s vs w :
  Z.of_nat (String.length s) <= _digits (device w) ->
  0 < _digits (device w) ->
  encode_string (cls (device w)) s = Ok vs ->
  show s false w = (Ok tt, extend w (write_events (_brightness (device w)) vs 0)).
Proof.
  intros Hlen Hd Hvs. unfold show.
  rewrite (bind_run _ _ _ _ _ (get_self_run w)).
  rewrite (str_prefix_all _ _ Hlen), Hvs.
  rewrite (bind_run _ _ _ _ _ (lift_run _ _)).
  rewrite andb_false_r.
  rewrite (bind_run _ _ _ _ _ (ret_run _ _)).
  apply write_run. lia.
Qed.

(** Between the bounds the number fits its [digits - 2] columns. *)
Lemma renders_temperature d num :
  3 <= d <= 6 ->
  temperature_low d <= num <= temperature_high d ->
  renders (Z.to_nat (d - 2)) (format_d_right " " (d - 2) num) = true.
Proof.
  intros Hd.
  assert (Hcases : d = 3 \/ d = 4 \/ d = 5 \/ d = 6) by lia.
  destruct Hcases as [-> | [-> | [-> | ->]]]; intros Hnum.
  - assert (Hall : forallb (fun n => renders 1 (format_d_right " " 1 n))
                     (Zseq 0 10) = true) by (vm_compute; reflexivity).
    rewrite forallb_forall in Hall. apply Hall, In_Zseq.
    change (temperature_low 3) with 0 in Hnum.
    change (temperature_high 3) with 9 in Hnum. lia.
  - assert (Hall : forallb (fun n => renders 2 (format_d_right " " 2 n))
                     (Zseq (-9) 109) = true) by (vm_compute; reflexivity).
    rewrite forallb_forall in Hall. apply Hall, In_Zseq.
    change (temperature_low 4) with (-9) in Hnum.
    change (temperature_high 4) with 99 in Hnum. lia.
  - assert (Hall : forallb (fun n => renders 3 (format_d_right " " 3 n))
                     (Zseq (-99) 1099) = true) by (vm_compute; reflexivity).
    rewrite forallb_forall in Hall. apply Hall, In_Zseq.
    change (temperature_low 5) with (-99) in Hnum.
    change (temperature_high 5) with 999 in Hnum. lia.
  - assert (Hall : forallb (fun n => renders 4 (format_d_right " " 4 n))
                     (Zseq (-999) 10999) = true) by (vm_compute; reflexivity).
    rewrite forallb_forall in Hall. apply Hall, In_Zseq.
    change (temperature_low 6) with (-999) in Hnum.
    change (temperature_high 6) with 9999 in Hnum. lia.
Qed.

(** The closing write of [temperature]: degree sign and C. *)
Lemma degree_c_run w :
  2 <= _digits (device w) ->
  (degree <- lift (getitem _SEGMENTS 38) ;;
   letter_c <- lift (getitem _SEGMENTS 12) ;;
   write [degree; letter_c] (_digits (device w) - 2)) w
  = (Ok tt,
     extend w (write_events (_brightness (device w)) [0x63; 0x39]
                 (_digits (device w) - 2))).
Proof.
  intros Hd.
  change (getitem _SEGMENTS 38) with (Ok 0x63).
  change (getitem _SEGMENTS 12) with (Ok 0x39).
  rewrite (bind_run _ _ _ _ _ (lift_run _ _)).
  rewrite (bind_run _ _ _ _ _ (lift_run _ _)).
  apply write_run. lia.
Qed.

Lemma encode_string_lo k : encode_string k "lo" = Ok [0x38; 0x3F].
Proof. destruct k; reflexivity. Qed.

Lemma encode_string_hi k : encode_string k "hi" = Ok [0x76; 0x06].
Proof. destruct k; reflexivity. Qed.

(** C9 (as the code has it).  On a display of two to six digits
    [temperature(num)] never fails.  It first writes at position 0: the
    segments of "lo" when [num] is below [temperature_low], those of "hi"
    when it is above [temperature_high], otherwise the [digits - 2] segments
    of the number right aligned in [digits - 2] columns.  It then writes the
    degree sign (table entry 38) and the letter C (entry 12) at position
    [digits - 2].  From three digits on the bounds are [-10^(digits-3) + 1]
    and [10^(digits-2) - 1]; on four digits they are -9 and 99, and the
    values outside are those whose decimal form is wider than two columns. *)
Theorem temperature_display :
  forall (num : Z) (w : world),
    2 <= _digits (device w) <= 6 ->
    exists shown,
      temperature num w
      = (Ok tt,
         extend w
           (write_events (_brightness (device w)) shown 0 ++
            write_events (_brightness (device w)) [0x63; 0x39]
              (_digits (device w) - 2)))
      /\ (num < temperature_low (_digits (device w)) ->
            encode_string (cls (device w)) "lo" = Ok shown)
      /\ (temperature_high (_digits (device w)) < num ->
            encode_string (cls (device w)) "hi" = Ok shown)
      /\ (temperature_low (_digits (device w)) <= num
            <= temperature_high (_digits (device w)) ->
            encode_string (cls (device w))
              (format_d_right " " (_digits (device w) - 2) num) = Ok shown
            /\ length shown = Z.to_nat (_digits (device w) - 2))
      /\ _SEGMENTS !! 38%nat = Some 0x63
      /\ _SEGMENTS !! 12%nat = Some 0x39
      /\ (3 <= _digits (device w) ->
            temperature_low (_digits (device w))
            = - 10 ^ (_digits (device w) - 3) + 1
            /\ temperature_high (_digits (device w))
               = 10 ^ (_digits (device w) - 2) - 1)
      /\ (_digits (device w) = 4 ->
            temperature_low (_digits (device w)) = -9
            /\ temperature_high (_digits (device w)) = 99
            /\ ((2 < String.length (format_d num))%nat
                <-> num <= -10 \/ 100 <= num)).
Proof.
  intros num w Hd.
  assert (Htail : forall evs,
             (degree <- lift (getitem _SEGMENTS 38) ;;
              letter_c <- lift (getitem _SEGMENTS 12) ;;
              write [degree; letter_c] (_digits (device w) - 2)) (extend w evs)
             = (Ok tt,
                extend w (evs ++ write_events (_brightness (device w)) [0x63; 0x39]
                                   (_digits (device w) - 2)))).
  { intros evs. rewrite <- extend_extend.
    apply (degree_c_run (extend w evs)). simpl. lia. }
  assert (Hbounds :
            (3 <= _digits (device w) ->
             temperature_low (_digits (device w))
             = - 10 ^ (_digits (device w) - 3) + 1
             /\ temperature_high (_digits (device w))
                = 10 ^ (_digits (device w) - 2) - 1)
            /\ (_digits (device w) = 4 ->
                temperature_low (_digits (device w)) = -9
                /\ temperature_high (_digits (device w)) = 99
                /\ ((2 < String.length (format_d num))%nat
                    <-> num <= -10 \/ 100 <= num))).
  { split.
    - intros H3. unfold temperature_low, temperature_high.
      destruct (Z.leb_spec (_digits (device w)) 2); [lia|]. split; reflexivity.
    - intros ->. split; [reflexivity|]. split; [reflexivity|].
      apply format_d_wider_than_two. }
  unfold temperature.
  rewrite (bind_run _ _ _ _ _ (get_self_run w)).
  rewrite temperature_low_cond, temperature_high_cond by exact Hd.
  destruct (Z.ltb_spec num (temperature_low (_digits (device w)))) as [Hlo|Hlo].
  - exists [0x38; 0x3F].
    rewrite (bind_run _ _ _ _ _
               (show_run "lo" _ w ltac:(simpl; lia) ltac:(lia) (encode_string_lo _))).
    rewrite Htail.
    split; [reflexivity|]. split; [intros _; apply encode_string_lo|].
    split.
    { intros Hhi. assert (temperature_low (_digits (device w))
                          <= temperature_high (_digits (device w)) + 1).
      { unfold temperature_low, temperature_high.
        destruct (Z.leb_spec (_digits (device w)) 2).
        - replace (_digits (device w)) with 2 by lia. reflexivity.
        - assert (0 < 10 ^ (_digits (device w) - 3)) by (apply Z.pow_pos_nonneg; lia).
          assert (0 < 10 ^ (_digits (device w) - 2)) by (apply Z.pow_pos_nonneg; lia).
          lia. }
      lia. }
    split; [lia|]. split; [reflexivity|]. split; [reflexivity|]. exact Hbounds.
  - destruct (Z.ltb_spec (temperature_high (_digits (device w))) num) as [Hhi|Hhi].
    + exists [0x76; 0x06].
      rewrite (bind_run _ _ _ _ _
                 (show_run "hi" _ w ltac:(simpl; lia) ltac:(lia) (encode_string_hi _))).
      rewrite Htail.
      split; [reflexivity|]. split; [lia|].
      split; [intros _; apply encode_string_hi|].
      split; [lia|]. split; [reflexivity|]. split; [reflexivity|]. exact Hbounds.
    + assert (H3 : 3 <= _digits (device w)).
      { destruct (Z.le_gt_cases 3 (_digits (device w))) as [|H2]; [assumption|].
        exfalso. replace (_digits (device w)) with 2 in Hlo, Hhi by lia.
        change (temperature_low 2) with 1 in Hlo.
        change (temperature_high 2) with 0 in Hhi. lia. }
      destruct (encode_string_renders (cls (device w)) _ _
                  (renders_temperature (_digits (device w)) num ltac:(lia)
                     (conj Hlo Hhi)))
        as (vs & Hvs & Hlen & _).
      exists vs. rewrite Hvs.
      assert (Hnum : (segments <- lift (Ok vs) ;; write segments 0) w
                     = (Ok tt, extend w (write_events (_brightness (device w)) vs 0))).
      { rewrite (bind_run _ _ _ _ _ (lift_run _ _)). apply write_run. lia. }
      rewrite (bind_run _ _ _ _ _ Hnum).
      rewrite Htail.
      split; [reflexivity|]. split; [lia|]. split; [lia|].
      split; [intros _; split; [reflexivity|exact Hlen]|].
      split; [reflexivity|]. split; [reflexivity|]. exact Hbounds.
Qed.

Lemma temperature_display_witness :
  exists shown,
    temperature 23 quad
    = (Ok tt,
       extend quad (write_events 7 shown 0 ++ write_events 7 [0x63; 0x39] 2))
    /\ encode_string Plain (format_d_right " " 2 23) = Ok shown
    /\ length shown = 2%nat.
Proof.
  destruct (temperature_display 23 quad ltac:(simpl; lia))
    as (shown & Hrun & _ & _ & Hnum & _).
  exists shown. split; [exact Hrun|].
  apply Hnum. change (temperature_low (_digits (device quad))) with (-9).
  change (temperature_high (_digits (device quad))) with 99. lia.
Defined.

(** On a one digit display the closing write is at position -1: after "h"
    (or "l") has been shown [temperature] raises, and degree sign and C are
    never written. *)
Lemma temperature_single_digit_counterexample :
  __init__ Plain 7 1 [] = (Ok (device single), bus ((extend single
      ([PinInit CLK 0; PinInit DIO 0; SleepUs 10] ++ data_cmd_events
       ++ dsp_ctrl_events 7))))
  /\ temperature 5 single
     = (Raise (ValueError "Position out of range"),
        extend single (write_events 7 [0x76] 0))
  /\ ~ (exists shown,
          temperature 5 single
          = (Ok tt,
             extend single
               (write_events 7 shown 0 ++ write_events 7 [0x63; 0x39] (1 - 2)))).
Proof.
  split; [reflexivity|].
  assert (H : temperature 5 single
              = (Raise (ValueError "Position out of range"),
                 extend single (write_events 7 [0x76] 0))) by reflexivity.
  split; [exact H|].
  intros (shown & Hs). rewrite H in Hs. discriminate Hs.
Qed.

(** * Further properties *)

(** ** Construction *)

Lemma init_accepts_run k level digits bus0 :
  0 <= level <= 7 -> 1 <= digits <= 6 ->
  __init__ k level digits bus0
  = (Ok {| cls := k; _brightness := level; _digits := digits |},
     bus0 ++ [PinInit CLK 0; PinInit DIO 0; SleepUs TM1637_DELAY]
          ++ data_cmd_events ++ dsp_ctrl_events level)
  /\ valid {| cls := k; _brightness := level; _digits := digits |}.
Proof.
  intros Hb Hd. split; [|split; simpl; lia].
  unfold __init__, TM1637_MAX_DIGITS.
  replace ((0 <=? level) && (level <=? 7)) with true
    by (symmetry; apply andb_true_iff; split; apply Z.leb_le; lia).
  replace ((1 <=? digits) && (digits <=? 6)) with true
    by (symmetry; apply andb_true_iff; split; apply Z.leb_le; lia).
  cbn [negb]. unfold sleep_us.
  rewrite (bind_run _ _ _ _ _ (emit_run _ _)).
  rewrite (bind_run _ _ _ _ _ (emit_run _ _)).
  rewrite (bind_run _ _ _ _ _ (emit_run _ _)).
  rewrite (bind_run _ _ _ _ _ (_write_data_cmd_run _)).
  rewrite _write_dsp_ctrl_run, !extend_extend. reflexivity.
Qed.

(** X1.  [__init__] with a brightness from 0 to 7 and one to six digits returns
    the device with these fields, which is [valid], after it has set both
    pins to output low (clock first), waited one timing unit and sent the
    data command and the display control for that brightness. *)
Theorem init_accepts :
  forall (k : variant) (level digits : Z) (bus0 : list event),
    0 <= level <= 7 -> 1 <= digits <= 6 ->
    __init__ k level digits bus0
    = (Ok {| cls := k; _brightness := level; _digits := digits |},
       bus0 ++ [PinInit CLK 0; PinInit DIO 0; SleepUs TM1637_DELAY]
            ++ data_cmd_events ++ dsp_ctrl_events level)
    /\ valid {| cls := k; _brightness := level; _digits := digits |}.
Proof. intros k level digits bus0 Hb Hd. exact (init_accepts_run k level digits bus0 Hb Hd). Qed.

Lemma init_accepts_witness :
  __init__ Decimal 3 6 []
  = (Ok {| cls := Decimal; _brightness := 3; _digits := 6 |},
     [] ++ [PinInit CLK 0; PinInit DIO 0; SleepUs TM1637_DELAY]
        ++ data_cmd_events ++ dsp_ctrl_events 3)
  /\ valid {| cls := Decimal; _brightness := 3; _digits := 6 |}.
Proof. apply (init_accepts Decimal 3 6 []); lia. Defined.

(** X2.  [__init__] refuses a brightness outside 0..7, and otherwise a digit
    count outside 1..6, before it touches a pin: the bus is as it was.  The
    brightness is checked first. *)
Theorem init_rejects :
  forall (k : variant) (level digits : Z) (bus0 : list event),
    (level < 0 \/ 7 < level ->
       __init__ k level digits bus0
       = (Raise (ValueError "Brightness out of range"), bus0))
    /\ (0 <= level <= 7 -> digits < 1 \/ 6 < digits ->
       __init__ k level digits bus0
       = (Raise (ValueError "Number of digits should be between 1 and 6"), bus0)).
Proof.
  intros k level digits bus0. unfold __init__, TM1637_MAX_DIGITS. split.
  - intros Hb.
    replace ((0 <=? level) && (level <=? 7)) with false; [reflexivity|].
    symmetry. apply andb_false_iff.
    destruct Hb; [left; apply Z.leb_gt | right; apply Z.leb_gt]; lia.
  - intros Hb Hd.
    replace ((0 <=? level) && (level <=? 7)) with true
      by (symmetry; apply andb_true_iff; split; apply Z.leb_le; lia).
    replace ((1 <=? digits) && (digits <=? 6)) with false; [reflexivity|].
    symmetry. apply andb_false_iff.
    destruct Hd; [left; apply Z.leb_gt | right; apply Z.leb_gt]; lia.
Qed.

Lemma init_rejects_witness :
  __init__ Plain 8 0 [] = (Raise (ValueError "Brightness out of range"), [])
  /\ __init__ Plain 7 7 []
     = (Raise (ValueError "Number of digits should be between 1 and 6"), []).
Proof.
  split.
  - apply (init_rejects Plain 8 0 []). lia.
  - apply (init_rejects Plain 7 7 []); lia.
Defined.

(** ** What a write puts on the bus *)

Lemma total_us_app a b : total_us (a ++ b) = total_us a + total_us b.
Proof.
  unfold total_us. induction a as [|e a IH]; simpl; [reflexivity|].
  destruct e; rewrite IH; lia.
Qed.

Lemma total_us_byte b : total_us (byte_events b) = 270.
Proof. reflexivity. Qed.

Lemma total_us_bytes segments :
  total_us (flat_map byte_events segments) = 270 * len segments.
Proof.
  unfold len. induction segments as [|b l IH]; [reflexivity|].
  cbn [flat_map]. rewrite total_us_app, total_us_byte, IH. simpl length. lia.
Qed.

(** X5.  A [write] of [n] segments at a valid position keeps the caller for
    [930 + 270 * n] microseconds of [sleep_us]: 31 timing units for each of
    the two command frames and for the framing of the data, 27 for every
    segment byte. *)
Theorem write_sleeps :
  forall (segments : list Z) (pos : Z) (w : world),
    0 <= pos < _digits (device w) ->
    total_us (emitted (write segments pos) w) = 930 + 270 * len segments.
Proof.
  intros segments pos w Hpos.
  rewrite (emitted_extend _ _ _ _ (write_run segments pos w Hpos)).
  unfold write_events, data_cmd_events, dsp_ctrl_events.
  rewrite !total_us_app, !total_us_byte, total_us_bytes.
  change (total_us start_events) with 20. change (total_us stop_events) with 20.
  lia.
Qed.

Lemma write_sleeps_witness :
  total_us (emitted (write [0x3F; 0x06; 0x5B; 0x4F] 0) quad) = 930 + 270 * 4.
Proof. apply (write_sleeps [0x3F; 0x06; 0x5B; 0x4F] 0 quad). simpl. lia. Defined.

Lemma protocol_bit level : forallb protocol_event (bit_events level) = true.
Proof. destruct level; reflexivity. Qed.

Lemma protocol_byte b : forallb protocol_event (byte_events b) = true.
Proof.
  unfold byte_events. rewrite !forallb_app, !protocol_bit. reflexivity.
Qed.

Lemma protocol_bytes segments :
  forallb protocol_event (flat_map byte_events segments) = true.
Proof.
  induction segments as [|b l IH]; [reflexivity|].
  cbn [flat_map]. by rewrite forallb_app, protocol_byte, IH.
Qed.

(** X6.  Whatever integers the segments are, a [write] at a valid position only
    drives pins to 0 or 1 and sleeps single timing units of 10 us: no pin is
    reconfigured or read and nothing sleeps in milliseconds. *)
Theorem write_protocol_events :
  forall (segments : list Z) (pos : Z) (w : world),
    0 <= pos < _digits (device w) ->
    forallb protocol_event (emitted (write segments pos) w) = true.
Proof.
  intros segments pos w Hpos.
  rewrite (emitted_extend _ _ _ _ (write_run segments pos w Hpos)).
  unfold write_events, data_cmd_events, dsp_ctrl_events.
  rewrite !forallb_app, !protocol_byte, protocol_bytes. reflexivity.
Qed.

Lemma write_protocol_events_witness :
  forallb protocol_event (emitted (write [-1; 300; 0x3F] 2) quad) = true.
Proof. apply (write_protocol_events [-1; 300; 0x3F] 2 quad). simpl. lia. Defined.

(** X7.  On a valid device the command bytes stay inside their families: the
    display control byte is [0x88 + brightness] (0x88..0x8F, display on) and
    the address byte of a [write] at a valid position is [0xC0 + pos]
    (0xC0..0xC5). *)
Theorem command_bytes :
  forall (segments : list Z) (pos : Z) (w : world),
    valid (device w) ->
    0 <= pos < _digits (device w) ->
    write segments pos w
    = (Ok tt,
       extend w
         ((start_events ++ byte_events 0x40 ++ stop_events) ++
          start_events ++ byte_events (0xC0 + pos) ++
          flat_map byte_events segments ++
          stop_events ++
          (start_events ++ byte_events (0x88 + _brightness (device w))
             ++ stop_events)))
    /\ 0xC0 <= 0xC0 + pos <= 0xC5
    /\ 0x88 <= 0x88 + _brightness (device w) <= 0x8F.
Proof.
  intros segments pos w [Hb Hd] Hpos.
  split; [|lia].
  rewrite (write_run segments pos w Hpos).
  unfold write_events, data_cmd_events, dsp_ctrl_events.
  assert (Hp : Z.lor 192 pos = 192 + pos).
  { assert (Hc : pos = 0 \/ pos = 1 \/ pos = 2 \/ pos = 3 \/ pos = 4 \/ pos = 5) by lia.
    destruct Hc as [-> | [-> | [-> | [-> | [-> | ->]]]]]; reflexivity. }
  assert (Hl : Z.lor 136 (_brightness (device w)) = 136 + _brightness (device w)).
  { assert (Hc : _brightness (device w) = 0 \/ _brightness (device w) = 1
                 \/ _brightness (device w) = 2 \/ _brightness (device w) = 3
                 \/ _brightness (device w) = 4 \/ _brightness (device w) = 5
                 \/ _brightness (device w) = 6 \/ _brightness (device w) = 7) by lia.
    destruct Hc as [-> | [-> | [-> | [-> | [-> | [-> | [-> | ->]]]]]]]; reflexivity. }
  rewrite Hp, Hl. reflexivity.
Qed.

Lemma command_bytes_witness :
  write [0x3F] 3 quad
  = (Ok tt,
     extend quad
       ((start_events ++ byte_events 0x40 ++ stop_events) ++
        start_events ++ byte_events (0xC0 + 3) ++
        flat_map byte_events [0x3F] ++
        stop_events ++
        (start_events ++ byte_events (0x88 + 7) ++ stop_events)))
  /\ 0xC0 <= 0xC0 + 3 <= 0xC5
  /\ 0x88 <= 0x88 + 7 <= 0x8F.
Proof.
  apply (command_bytes [0x3F] 3 quad); [split; simpl; lia | simpl; lia].
Defined.

(** ** The device fields *)

Lemma keeps_ret {A} (a : A) : keeps_device (ret a).
Proof. intros w. reflexivity. Qed.

Lemma keeps_raise {A} e : keeps_device (@raise A e).
Proof. intros w. reflexivity. Qed.

Lemma keeps_lift {A} (r : result A) : keeps_device (lift r).
Proof. intros w. reflexivity. Qed.

Lemma keeps_get_self : keeps_device get_self.
Proof. intros w. reflexivity. Qed.

Lemma keeps_emit e : keeps_device (emit e).
Proof. intros w. reflexivity. Qed.

Lemma keeps_bind {A B} (c : M A) (k : A -> M B) :
  keeps_device c -> (forall a, keeps_device (k a)) -> keeps_device (bind c k).
Proof.
  intros Hc Hk w. unfold bind. specialize (Hc w).
  destruct (c w) as [[a|e] w']; simpl in *.
  - rewrite Hk. exact Hc.
  - exact Hc.
Qed.

Lemma keeps_for_each {A} (l : list A) (body : A -> M unit) :
  (forall x, keeps_device (body x)) -> keeps_device (for_each l body).
Proof.
  intros Hbody. induction l as [|x l IH]; simpl.
  - apply keeps_ret.
  - apply keeps_bind; [apply Hbody|intros _; exact IH].
Qed.

Ltac keeps_step :=
  lazymatch goal with
  | |- keeps_device (ret _) => apply keeps_ret
  | |- keeps_device (raise _) => apply keeps_raise
  | |- keeps_device (lift _) => apply keeps_lift
  | |- keeps_device get_self => apply keeps_get_self
  | |- keeps_device (emit _) => apply keeps_emit
  | |- keeps_device (bind _ _) => apply keeps_bind; [|intros ?]
  | |- keeps_device (for_each _ _) => apply keeps_for_each; intros ?
  | |- keeps_device (if ?c then _ else _) => destruct c
  | |- keeps_device (match ?x with _ => _ end) => destruct x
  end.

Lemma keeps_write_byte b : keeps_device (_write_byte b).
Proof. unfold _write_byte, clk, dio, sleep_us. repeat keeps_step. Qed.

Lemma keeps_start : keeps_device _start.
Proof. unfold _start, clk, dio, sleep_us. repeat keeps_step. Qed.

Lemma keeps_stop : keeps_device _stop.
Proof. unfold _stop, clk, dio, sleep_us. repeat keeps_step. Qed.

Lemma keeps_write segments pos : keeps_device (write segments pos).
Proof.
  unfold write, _write_data_cmd, _write_dsp_ctrl.
  repeat lazymatch goal with
         | |- keeps_device (_write_byte _) => apply keeps_write_byte
         | |- keeps_device _start => apply keeps_start
         | |- keeps_device _stop => apply keeps_stop
         | |- _ => keeps_step
         end.
Qed.

Ltac keeps_all :=
  repeat lazymatch goal with
         | |- keeps_device (write _ _) => apply keeps_write
         | |- keeps_device (sleep_ms _) => apply keeps_emit
         | |- _ => keeps_step
         end.

Lemma keeps_show text colon : keeps_device (show text colon).
Proof. unfold show. keeps_all. Qed.

(** X8.  None of [write], [hex], [number], [hour_minute], [numbers], [show],
    [temperature] and [scroll] changes the class, the brightness or the
    digit count of the device, whether it returns or raises. *)
Theorem rendering_keeps_device :
  (forall segments pos, keeps_device (write segments pos))
  /\ (forall val, keeps_device (hex val))
  /\ (forall num, keeps_device (number num))
  /\ (forall hour minute colon, keeps_device (hour_minute hour minute colon))
  /\ (forall num1 num2 colon, keeps_device (numbers num1 num2 colon))
  /\ (forall text colon, keeps_device (show text colon))
  /\ (forall num, keeps_device (temperature num))
  /\ (forall text delay, keeps_device (scroll text delay)).
Proof.
  split; [exact keeps_write|].
  split; [intros; unfold hex; keeps_all|].
  split; [intros; unfold number; keeps_all|].
  split; [intros; unfold hour_minute; keeps_all|].
  split; [intros; unfold numbers, hour_minute; keeps_all|].
  split; [exact keeps_show|].
  split; [intros; unfold temperature|intros; unfold scroll]; keeps_all;
    apply keeps_show.
Qed.

(** X9.  [brightness], getter or setter, successful or not, keeps a valid device
    valid and never changes its class or digit count. *)
Theorem brightness_keeps_valid :
  forall (val : option Z) (w : world),
    valid (device w) ->
    valid (device (snd (brightness val w)))
    /\ _digits (device (snd (brightness val w))) = _digits (device w)
    /\ cls (device (snd (brightness val w))) = cls (device w).
Proof.
  intros [v|] w Hvalid.
  - destruct (Z_le_gt_dec 0 v) as [H0|H0]; [destruct (Z_le_gt_dec v 7) as [H7|H7]|].
    + rewrite (brightness_set_run v w (conj H0 H7)). simpl.
      destruct Hvalid as [_ Hd]. repeat split; simpl; lia.
    + rewrite (brightness_set_raise v w) by lia. simpl. auto.
    + rewrite (brightness_set_raise v w) by lia. simpl. auto.
  - simpl. auto.
Qed.

Lemma brightness_keeps_valid_witness :
  valid (device (snd (brightness (Some 9) quad)))
  /\ _digits (device (snd (brightness (Some 9) quad))) = _digits (device quad)
  /\ cls (device (snd (brightness (Some 9) quad))) = cls (device quad).
Proof. apply (brightness_keeps_valid (Some 9) quad). split; simpl; lia. Defined.

(** ** Encoders *)

(** X10.  [encode_digit] never fails: for any integer it returns the table entry
    of the value's low four bits, which is also what [encode_char] returns
    for that hexadecimal digit written as a character. *)
Theorem encode_digit_total :
  forall digit : Z,
    exists v,
      encode_digit digit = Ok v
      /\ _SEGMENTS !! Z.to_nat (digit mod 16) = Some v
      /\ encode_char (digit_char (digit mod 16)) = Ok v.
Proof.
  intros digit. unfold encode_digit.
  change 15 with (Z.ones 4). rewrite Z.land_ones by lia.
  change (2 ^ 4) with 16.
  pose proof (Z.mod_pos_bound digit 16 ltac:(lia)) as Hm.
  set (m := digit mod 16) in *.
  assert (Hc : m = 0 \/ m = 1 \/ m = 2 \/ m = 3 \/ m = 4 \/ m = 5 \/ m = 6
               \/ m = 7 \/ m = 8 \/ m = 9 \/ m = 10 \/ m = 11 \/ m = 12
               \/ m = 13 \/ m = 14 \/ m = 15) by lia.
  clearbody m.
  repeat (destruct Hc as [-> | Hc]; [eexists; repeat split; reflexivity|]).
  subst m. eexists; repeat split; reflexivity.
Qed.

Lemma encode_each_app_bind cs1 cs2 :
  encode_each (cs1 ++ cs2)
  = let? v1 := encode_each cs1 in let? v2 := encode_each cs2 in Ok (v1 ++ v2).
Proof.
  induction cs1 as [|c cs1 IH]; simpl.
  - by destruct (encode_each cs2).
  - destruct (encode_char c); simpl; [|reflexivity].
    rewrite IH. destruct (encode_each cs1); simpl; [|reflexivity].
    by destruct (encode_each cs2).
Qed.

(** X11.  The plain encoder works character by character and left to right: a
    one character string gives the byte of [encode_char] or its error, and
    the encoding of [s1 ++ s2] is that of [s1] followed by that of [s2],
    where an error in [s1] comes before one in [s2].  The empty string gives
    no byte. *)
Theorem encode_string_plain_compose :
  encode_string Plain EmptyString = Ok []
  /\ (forall c : ascii,
        encode_string Plain (String c EmptyString)
        = let? v := encode_char c in Ok [v])
  /\ (forall s1 s2 : string,
        encode_string Plain (String.append s1 s2)
        = let? v1 := encode_string Plain s1 in
          let? v2 := encode_string Plain s2 in Ok (v1 ++ v2)).
Proof.
  split; [reflexivity|]. split.
  - intros c. simpl. rewrite encode_string_plain_each. simpl.
    by destruct (encode_char c).
  - intros s1 s2. simpl. rewrite !encode_string_plain_each.
    rewrite list_ascii_of_string_app. apply encode_each_app_bind.
Qed.

Lemma encode_char_low c v : encode_char c = Ok v -> 0 <= v < 128.
Proof.
  destruct c as [[] [] [] [] [] [] [] []]; vm_compute; intros H;
    inversion H; split; congruence.
Qed.

Lemma encode_each_low cs vs :
  encode_each cs = Ok vs -> Forall (fun v => 0 <= v < 128) vs.
Proof.
  revert vs. induction cs as [|c cs IH]; intros vs; simpl.
  - intros H. inversion H. constructor.
  - destruct (encode_char c) as [v|] eqn:Hc; simpl; [|discriminate].
    destruct (encode_each cs) as [vs'|]; simpl; [|discriminate].
    intros H. inversion H. constructor; [|by apply IH].
    exact (encode_char_low _ _ Hc).
Qed.

(** X12.  The plain encoder never sets bit 0x80: every byte it returns is below
    128, so colon and point are lit by [hour_minute], [show] and the
    decimal-point encoder only. *)
Theorem encode_string_plain_low :
  forall (s : string) (segments : list Z),
    encode_string Plain s = Ok segments ->
    Forall (fun v => 0 <= v < 128) segments.
Proof.
  intros s segments. simpl. rewrite encode_string_plain_each.
  apply encode_each_low.
Qed.

Lemma encode_string_plain_low_witness :
  Forall (fun v => 0 <= v < 128) [0x77; 0x7C; 0x00; 0x40; 0x63].
Proof. exact (encode_string_plain_low "Ab -*" _ eq_refl). Defined.

Lemma no_dots_forallb cs :
  length (List.filter is_dot cs) = 0%nat ->
  forallb (fun c => negb (is_dot c)) cs = true.
Proof.
  induction cs as [|c cs IH]; simpl; [reflexivity|].
  destruct (is_dot c); simpl; [discriminate|exact IH].
Qed.

(** X13.  On a string without a dot the decimal-point encoder is the plain one,
    in its result and in its error. *)
Theorem encode_string_decimal_without_dots :
  forall s : string,
    count_dots s = 0%nat ->
    encode_string Decimal s = encode_string Plain s.
Proof.
  intros s Hs. simpl.
  rewrite encode_string_decimal_fold, encode_string_plain_each.
  rewrite (decimal_fold_no_dots _ (no_dots_forallb _ Hs)).
  by destruct (encode_each _).
Qed.

Lemma encode_string_decimal_without_dots_witness :
  encode_string Decimal "12 ?" = encode_string Plain "12 ?".
Proof. exact (encode_string_decimal_without_dots "12 ?" eq_refl). Defined.

Lemma clear_or_msb b : clear_msb (or_msb b) = clear_msb b.
Proof.
  unfold clear_msb, or_msb. rewrite Z.land_lor_distr_l.
  change (Z.land 128 127) with 0. apply Z.lor_0_r.
Qed.

Lemma clear_msb_low v : 0 <= v < 128 -> clear_msb v = v.
Proof.
  intros Hv. unfold clear_msb. change 127 with (Z.ones 7).
  rewrite Z.land_ones by lia. apply Z.mod_small. simpl. lia.
Qed.

Lemma map_clear_alter k (l : list Z) :
  map clear_msb (alter or_msb k l) = map clear_msb l.
Proof.
  revert k. induction l as [|x l IH]; intros [|k]; simpl; try reflexivity.
  - by rewrite clear_or_msb.
  - f_equal. apply IH.
Qed.

Lemma decimal_fold_strip cs :
  forall out r,
    decimal_fold cs out = Ok r ->
    exists vs,
      encode_each (List.filter (fun c => negb (Ascii.eqb c ".")) cs) = Ok vs
      /\ map clear_msb r = map clear_msb out ++ vs.
Proof.
  induction cs as [|c cs IH]; intros out r; simpl.
  - intros H. inversion H. exists []. by rewrite app_nil_r.
  - destruct (Ascii.eqb c "." && (0 <? len out)) eqn:Hdot.
    + apply andb_true_iff in Hdot as [Hc _]. rewrite Hc. simpl.
      intros H. destruct (IH _ _ H) as (vs & Hvs & Hr).
      exists vs. split; [exact Hvs|]. by rewrite Hr, map_clear_alter.
    + destruct (encode_char c) as [v|] eqn:Hv; simpl; [|discriminate].
      assert (Hnd : Ascii.eqb c "." = false).
      { destruct (Ascii.eqb_spec c "."%char) as [->|]; [|reflexivity].
        rewrite encode_char_dot_raise in Hv. discriminate. }
      rewrite Hnd. simpl. rewrite Hv. simpl.
      intros H. destruct (IH _ _ H) as (vs & Hvs & Hr).
      exists (v :: vs). rewrite Hvs. split; [reflexivity|].
      rewrite Hr, map_app. simpl.
      rewrite (clear_msb_low v (encode_char_low _ _ Hv)).
      by rewrite <- app_assoc.
Qed.

(** X14.  What the decimal-point encoder returns is, points cleared, what the
    plain encoder returns for the string with its dots removed. *)
Theorem encode_string_decimal_strip :
  forall (s : string) (segments : list Z),
    encode_string Decimal s = Ok segments ->
    encode_string Plain (remove_dots s) = Ok (map clear_msb segments).
Proof.
  intros s segments. simpl.
  rewrite encode_string_decimal_fold, encode_string_plain_each.
  unfold remove_dots. rewrite list_ascii_of_string_of_list_ascii.
  intros H. destruct (decimal_fold_strip _ _ _ H) as (vs & Hvs & Hr).
  simpl in Hr. by rewrite Hvs, Hr.
Qed.

Lemma encode_string_decimal_strip_witness :
  encode_string Plain (remove_dots "1.2.") = Ok (map clear_msb [0x86; 0xDB]).
Proof. exact (encode_string_decimal_strip "1.2." [0x86; 0xDB] eq_refl). Defined.

Lemma or_msb_idem b : or_msb (or_msb b) = or_msb b.
Proof. unfold or_msb. rewrite <- Z.lor_assoc. reflexivity. Qed.

(** X15.  A dot repeated is a dot: writing two dots where there was one changes
    neither the bytes nor the error of the decimal-point encoder. *)
Theorem encode_string_decimal_double_dot :
  forall s1 s2 : string,
    encode_string Decimal (String.append s1 (String "." (String "." s2)))
    = encode_string Decimal (String.append s1 (String "." s2)).
Proof.
  intros s1 s2. simpl. rewrite !encode_string_decimal_fold.
  rewrite !list_ascii_of_string_app. simpl.
  rewrite !decimal_fold_app.
  destruct (decimal_fold (list_ascii_of_string s1) []) as [out|]; simpl;
    [|reflexivity].
  destruct (0 <? len out) eqn:Hlen; simpl; [|reflexivity].
  replace (len (alter or_msb (length out - 1)%nat out)) with (len out)
    by (unfold len; by rewrite length_alter).
  rewrite Hlen, length_alter, list_alter_alter_eq.
  f_equal. apply list_alter_ext; [|reflexivity].
  intros x _. apply or_msb_idem.
Qed.

(** ** Numbers *)

Lemma length_string_append s1 s2 :
  String.length (String.append s1 s2) = (String.length s1 + String.length s2)%nat.
Proof. induction s1 as [|c s1 IH]; simpl; congruence. Qed.

Lemma digit_char_encodable d : 0 <= d < 16 -> encodable (digit_char d) = true.
Proof.
  intros Hd.
  assert (Hc : d = 0 \/ d = 1 \/ d = 2 \/ d = 3 \/ d = 4 \/ d = 5 \/ d = 6
               \/ d = 7 \/ d = 8 \/ d = 9 \/ d = 10 \/ d = 11 \/ d = 12
               \/ d = 13 \/ d = 14 \/ d = 15) by lia.
  repeat (destruct Hc as [-> | Hc]; [reflexivity|]). subst d. reflexivity.
Qed.

Lemma digits_acc_encodable fuel base :
  2 <= base <= 16 ->
  forall n acc,
    forallb encodable (list_ascii_of_string acc) = true ->
    forallb encodable (list_ascii_of_string (digits_acc fuel base n acc)) = true.
Proof.
  intros Hbase. induction fuel as [|fuel IH]; intros n acc Hacc.
  - simpl. rewrite Hacc, digit_char_encodable; [reflexivity|].
    pose proof (Z.mod_pos_bound n base ltac:(lia)). lia.
  - cbn [digits_acc].
    assert (Hacc' : forallb encodable
              (list_ascii_of_string (String (digit_char (n mod base)) acc)) = true).
    { simpl. rewrite Hacc, digit_char_encodable; [reflexivity|].
      pose proof (Z.mod_pos_bound n base ltac:(lia)). lia. }
    destruct (n <? base); [exact Hacc'|]. apply IH. exact Hacc'.
Qed.

Lemma digits_acc_length fuel base :
  2 <= base ->
  forall n acc k,
    1 <= k -> 0 <= n < base ^ k ->
    Z.of_nat (String.length (digits_acc fuel base n acc))
    <= Z.of_nat (String.length acc) + k.
Proof.
  intros Hbase. induction fuel as [|fuel IH]; intros n acc k Hk Hn.
  - simpl. lia.
  - cbn [digits_acc]. destruct (Z.ltb_spec n base) as [Hlt|Hge]; [simpl; lia|].
    assert (Hk2 : 2 <= k).
    { destruct (Z.eq_dec k 1) as [->|]; [|lia]. rewrite Z.pow_1_r in Hn. lia. }
    assert (Hq : 0 <= n / base < base ^ (k - 1)).
    { split; [apply Z.div_pos; lia|].
      apply Z.div_lt_upper_bound; [lia|].
      rewrite <- Z.pow_succ_r by lia. replace (Z.succ (k - 1)) with k by lia. lia. }
    specialize (IH (n / base) (String (digit_char (n mod base)) acc) (k - 1)
                  ltac:(lia) Hq).
    simpl String.length in IH. lia.
Qed.

Lemma rjust_length fill width s :
  Z.of_nat (String.length (rjust fill width s))
  = Z.max width (Z.of_nat (String.length s)).
Proof.
  unfold rjust.
  rewrite length_string_append, length_string_of_list_ascii, length_replicate. lia.
Qed.

Lemma rjust_encodable fill width s :
  encodable fill = true ->
  forallb encodable (list_ascii_of_string s) = true ->
  forallb encodable (list_ascii_of_string (rjust fill width s)) = true.
Proof.
  intros Hfill Hs. unfold rjust.
  rewrite list_ascii_of_string_app, list_ascii_of_string_of_list_ascii.
  rewrite forallb_app, Hs, andb_true_r.
  induction (Z.to_nat _) as [|n IH]; simpl; [reflexivity|]. by rewrite Hfill, IH.
Qed.

Lemma encodable_renders s :
  forallb encodable (list_ascii_of_string s) = true ->
  renders (String.length s) s = true.
Proof.
  unfold renders. rewrite <- length_list_ascii_of_string.
  induction (list_ascii_of_string s) as [|c cs IH]; simpl; [reflexivity|].
  intros H. apply andb_true_iff in H as [Hc Hcs].
  specialize (IH Hcs). apply andb_true_iff in IH as [Hnd He].
  unfold encodable in Hc. apply andb_true_iff in Hc as [Hc1 Hc2].
  rewrite Hc1, Hnd. simpl.
  destruct (encode_char c); [|discriminate]. simpl.
  destruct (encode_each cs); [|discriminate]. simpl. exact He.
Qed.

Lemma format_d_encodable n :
  forallb encodable (list_ascii_of_string (format_d n)) = true.
Proof.
  unfold format_d, digits_str. destruct (n <? 0).
  - change (list_ascii_of_string (String "-" ?s))
      with ("-"%char :: list_ascii_of_string s).
    cbn [forallb]. rewrite digits_acc_encodable; [reflexivity|lia|reflexivity].
  - apply digits_acc_encodable; [lia|reflexivity].
Qed.

Lemma format_d_length n k :
  1 <= k -> - 10 ^ (k - 1) < n < 10 ^ k ->
  Z.of_nat (String.length (format_d n)) <= k.
Proof.
  intros Hk Hn. unfold format_d, digits_str.
  destruct (Z.ltb_spec n 0) as [Hneg|Hpos].
  - assert (Hk2 : 2 <= k).
    { destruct (Z.eq_dec k 1) as [->|]; [|lia]. simpl in Hn. lia. }
    pose proof (digits_acc_length (Z.to_nat (- n)) 10 ltac:(lia) (- n)
                  EmptyString (k - 1) ltac:(lia) ltac:(lia)) as H.
    simpl String.length in *. lia.
  - pose proof (digits_acc_length (Z.to_nat n) 10 ltac:(lia) n
                  EmptyString k Hk ltac:(lia)) as H.
    simpl String.length in *. lia.
Qed.

(** X16.  [number] never fails on a device with at least one digit: whatever the
    value, it is brought into [-10^(digits-1) + 1 .. 10^digits - 1], its
    decimal form right aligned with blanks encodes, and exactly [digits]
    segment bytes are written from position 0. *)
Theorem number_fills_display :
  forall (num : Z) (w : world),
    1 <= _digits (device w) ->
    exists segments,
      encode_string (cls (device w))
        (format_d_right " " (_digits (device w))
           (clamp (- 10 ^ (_digits (device w) - 1) + 1)
                  (10 ^ _digits (device w) - 1) num))
      = Ok segments
      /\ length segments = Z.to_nat (_digits (device w))
      /\ number num w
         = (Ok tt, extend w (write_events (_brightness (device w)) segments 0)).
Proof.
  intros num w Hd. set (d := _digits (device w)) in *.
  set (n := clamp (- 10 ^ (d - 1) + 1) (10 ^ d - 1) num).
  assert (Hp1 : 0 < 10 ^ (d - 1)) by (apply Z.pow_pos_nonneg; lia).
  assert (Hp : 10 ^ d = 10 * 10 ^ (d - 1)).
  { rewrite <- Z.pow_succ_r by lia. f_equal. lia. }
  assert (Hn : - 10 ^ (d - 1) < n < 10 ^ d) by (unfold n, clamp; lia).
  pose proof (format_d_length n d Hd Hn) as Hlen.
  assert (Henc : forallb encodable
            (list_ascii_of_string (format_d_right " " d n)) = true).
  { apply rjust_encodable; [reflexivity|apply format_d_encodable]. }
  pose proof (encodable_renders _ Henc) as Hr.
  destruct (encode_string_renders (cls (device w)) _ _ Hr)
    as (vs & Hvs & Hvlen & _).
  exists vs. split; [exact Hvs|]. split.
  - rewrite Hvlen. pose proof (rjust_length " " d (format_d n)) as Hj.
    unfold format_d_right. lia.
  - unfold number. rewrite (bind_run _ _ _ _ _ (get_self_run w)).
    fold d. change (Z.max (- 10 ^ (d - 1) + 1) (Z.min num (10 ^ d - 1))) with n.
    rewrite Hvs. rewrite (bind_run _ _ _ _ _ (lift_run _ _)).
    apply write_run. fold d. lia.
Qed.

Lemma number_fills_display_witness :
  exists segments,
    encode_string Plain (format_d_right " " 4 (clamp (- 10 ^ 3 + 1) (10 ^ 4 - 1) (-5000)))
    = Ok segments
    /\ length segments = 4%nat
    /\ number (-5000) quad = (Ok tt, extend quad (write_events 7 segments 0)).
Proof. apply (number_fills_display (-5000) quad). simpl. lia. Defined.

Lemma hex_mask_mod val d :
  0 <= d -> Z.land val (Z.shiftl 1 (8 * d) - 1) = val mod 16 ^ (2 * d).
Proof.
  intros Hd. rewrite Z.sub_1_r. change (Z.pred (Z.shiftl 1 (8 * d))) with (Z.ones (8 * d)).
  rewrite Z.land_ones by lia. f_equal.
  change 16 with (2 ^ 4). rewrite <- Z.pow_mul_r by lia. f_equal. lia.
Qed.

(** X17.  [hex] never fails on a device with at least one digit.  The value is
    reduced modulo [16^(2*digits)] and written from position 0 in at least
    [digits] and at most [2 * digits] segment bytes; a value from 0 to
    [16^digits - 1] fills exactly the [digits] positions. *)
Theorem hex_writes :
  forall (val : Z) (w : world),
    1 <= _digits (device w) ->
    exists segments,
      encode_string (cls (device w))
        (format_x_zero (_digits (device w)) (val mod 16 ^ (2 * _digits (device w))))
      = Ok segments
      /\ hex val w
         = (Ok tt, extend w (write_events (_brightness (device w)) segments 0))
      /\ _digits (device w) <= len segments <= 2 * _digits (device w)
      /\ (0 <= val < 16 ^ _digits (device w) ->
            len segments = _digits (device w)).
Proof.
  intros val w Hd. set (d := _digits (device w)) in *.
  assert (H16 : 0 < 16 ^ (2 * d)) by (apply Z.pow_pos_nonneg; lia).
  pose proof (Z.mod_pos_bound val (16 ^ (2 * d)) H16) as Hm.
  set (x := val mod 16 ^ (2 * d)) in *.
  assert (Hfmt : format_x_zero d x = rjust "0" d (digits_str 16 x)).
  { unfold format_x_zero. destruct (Z.ltb_spec x 0); [lia|reflexivity]. }
  assert (Henc : forallb encodable (list_ascii_of_string (format_x_zero d x)) = true).
  { rewrite Hfmt. apply rjust_encodable; [reflexivity|].
    apply digits_acc_encodable; [lia|reflexivity]. }
  pose proof (encodable_renders _ Henc) as Hr.
  destruct (encode_string_renders (cls (device w)) _ _ Hr)
    as (vs & Hvs & Hvlen & _).
  exists vs. split; [exact Hvs|].
  pose proof (rjust_length "0" d (digits_str 16 x)) as Hj.
  rewrite <- Hfmt in Hj.
  pose proof (digits_acc_length (Z.to_nat x) 16 ltac:(lia) x EmptyString (2 * d)
                ltac:(lia) Hm) as Hlen2.
  fold (digits_str 16 x) in Hlen2. simpl String.length in Hlen2.
  split; [|split].
  - unfold hex. rewrite (bind_run _ _ _ _ _ (get_self_run w)).
    fold d. rewrite (hex_mask_mod val d) by lia. fold x.
    rewrite Hvs. rewrite (bind_run _ _ _ _ _ (lift_run _ _)).
    apply write_run. fold d. lia.
  - unfold len. rewrite Hvlen. lia.
  - intros Hval.
    assert (Hle : 16 ^ d <= 16 ^ (2 * d)) by (apply Z.pow_le_mono_r; lia).
    assert (Hx : x = val) by (unfold x; apply Z.mod_small; lia).
    pose proof (digits_acc_length (Z.to_nat x) 16 ltac:(lia) x EmptyString d
                  ltac:(lia) ltac:(lia)) as Hlen1.
    fold (digits_str 16 x) in Hlen1. simpl String.length in Hlen1.
    unfold len. rewrite Hvlen. lia.
Qed.

Lemma hex_writes_witness :
  exists segments,
    encode_string Plain (format_x_zero 4 (0xbeef mod 16 ^ (2 * 4))) = Ok segments
    /\ hex 0xbeef quad = (Ok tt, extend quad (write_events 7 segments 0))
    /\ 4 <= len segments <= 2 * 4
    /\ len segments = 4.
Proof.
  destruct (hex_writes 0xbeef quad ltac:(simpl; lia)) as (vs & H1 & H2 & H3 & H4).
  exists vs. split; [exact H1|]. split; [exact H2|]. split; [exact H3|].
  apply H4. simpl. lia.
Defined.

(** ** Clock, text and scrolling *)

Lemma two_digits_encode n :
  0 <= n <= 99 ->
  encode_each (list_ascii_of_string (format_d_right "0" 2 n))
  = Ok [digit_segment (n / 10); digit_segment (n mod 10)].
Proof.
  intros Hn.
  assert (Hall : forallb two_digits_ok (Zseq 0 100) = true)
    by (vm_compute; reflexivity).
  rewrite forallb_forall in Hall.
  assert (Hin : In n (Zseq 0 100)) by (apply In_Zseq; lia).
  specialize (Hall n Hin). unfold two_digits_ok in Hall.
  destruct (encode_each _) as [[|a [|b [|c vs]]]|]; try discriminate.
  apply andb_true_iff in Hall as [Ha Hb].
  apply Z.eqb_eq in Ha, Hb. by rewrite Ha, Hb.
Qed.

Lemma hour_minute_as_write hour minute colon w :
  0 <= hour -> 0 <= minute ->
  hour_minute hour minute colon w
  = write [digit_segment (Z.min hour 99 / 10);
           (if colon then or_msb (digit_segment (Z.min hour 99 mod 10))
            else digit_segment (Z.min hour 99 mod 10));
           digit_segment (Z.min minute 99 / 10);
           digit_segment (Z.min minute 99 mod 10)] 0 w.
Proof.
  intros Hh Hm. unfold hour_minute.
  rewrite (bind_run _ _ _ _ _ (get_self_run w)).
  replace (Z.max (-9) (Z.min hour 99)) with (Z.min hour 99) by lia.
  replace (Z.max (-9) (Z.min minute 99)) with (Z.min minute 99) by lia.
  assert (Hh99 : 0 <= Z.min hour 99 <= 99) by lia.
  assert (Hm99 : 0 <= Z.min minute 99 <= 99) by lia.
  set (h := Z.min hour 99) in *. set (m := Z.min minute 99) in *.
  clearbody h m.
  destruct (encode_string_renders (cls (device w)) _ _
              (renders_app 2 2 _ _
                 (renders_two_digits h ltac:(lia)) (renders_two_digits m ltac:(lia))))
    as (vs & Hvs & Hlen & Hbytes & Heach).
  rewrite list_ascii_of_string_app in Heach.
  rewrite (encode_each_app _ _ _ _ (two_digits_encode h Hh99)
             (two_digits_encode m Hm99)) in Heach.
  inversion Heach as [Hvs']. rewrite <- Hvs' in *. clear Heach Hvs'.
  rewrite Hvs. rewrite (bind_run _ _ _ _ _ (lift_run _ _)).
  destruct colon.
  - rewrite set_colon_alter; [|simpl; lia|exact Hbytes].
    rewrite (bind_run _ _ _ _ _ (lift_run _ _)). reflexivity.
  - rewrite (bind_run _ _ _ _ _ (ret_run _ _)). reflexivity.
Qed.

(** X18.  For an hour and a minute that are not negative, [hour_minute] writes, from
    position 0, the table entries of the tens and units of the hour and of
    the minute, each value first cut at 99; with [colon] the second byte has
    bit 0x80 added, and no other byte has. *)
Theorem hour_minute_digits :
  forall (hour minute : Z) (colon : bool) (w : world),
    0 <= hour -> 0 <= minute ->
    hour_minute hour minute colon w
    = write [digit_segment (Z.min hour 99 / 10);
             (if colon then Z.lor (digit_segment (Z.min hour 99 mod 10)) 0x80
              else digit_segment (Z.min hour 99 mod 10));
             digit_segment (Z.min minute 99 / 10);
             digit_segment (Z.min minute 99 mod 10)] 0 w.
Proof. exact hour_minute_as_write. Qed.

Lemma hour_minute_digits_witness :
  hour_minute 7 250 true quad
  = write [digit_segment (Z.min 7 99 / 10);
           Z.lor (digit_segment (Z.min 7 99 mod 10)) 0x80;
           digit_segment (Z.min 250 99 / 10);
           digit_segment (Z.min 250 99 mod 10)] 0 quad.
Proof. apply (hour_minute_digits 7 250 true quad); lia. Defined.

Lemma decimal_fold_bytes cs :
  forall out r,
    Forall is_byte out -> decimal_fold cs out = Ok r -> Forall is_byte r.
Proof.
  induction cs as [|c cs IH]; intros out r Hout; simpl.
  - intros H. inversion H. subst. exact Hout.
  - destruct (Ascii.eqb c "." && (0 <? len out)).
    + apply IH. apply Forall_alter; [exact Hout|].
      intros x _ Hx. by apply or_msb_byte.
    + destruct (encode_char c) as [v|] eqn:Hv; simpl; [|discriminate].
      apply IH. apply Forall_app. split; [exact Hout|].
      constructor; [exact (encode_char_byte _ _ Hv)|constructor].
Qed.

Lemma encode_string_bytes k s vs :
  encode_string k s = Ok vs -> Forall is_byte vs.
Proof.
  destruct k; simpl.
  - rewrite encode_string_plain_each. apply encode_each_bytes.
  - rewrite encode_string_decimal_fold. apply decimal_fold_bytes. constructor.
Qed.

Lemma show_as_write text colon w vs :
  encode_string (cls (device w)) (str_prefix text (_digits (device w))) = Ok vs ->
  show text colon w
  = write (if colon && (1 <? len vs) then alter or_msb 1%nat vs else vs) 0 w.
Proof.
  intros Hvs. unfold show.
  rewrite (bind_run _ _ _ _ _ (get_self_run w)).
  rewrite Hvs. rewrite (bind_run _ _ _ _ _ (lift_run _ _)).
  rewrite andb_comm.
  destruct colon; simpl; [|by rewrite (bind_run _ _ _ _ _ (ret_run _ _))].
  destruct (Z.ltb_spec 1 (len vs)) as [Hlen|Hlen].
  - rewrite (set_colon_alter vs ltac:(unfold len in Hlen; lia)
               (encode_string_bytes _ _ _ Hvs)).
    by rewrite (bind_run _ _ _ _ _ (lift_run _ _)).
  - by rewrite (bind_run _ _ _ _ _ (ret_run _ _)).
Qed.

Lemma show_raise text colon w e :
  encode_string (cls (device w)) (str_prefix text (_digits (device w))) = Raise e ->
  show text colon w = (Raise e, w).
Proof.
  intros He. unfold show.
  rewrite (bind_run _ _ _ _ _ (get_self_run w)).
  rewrite He. reflexivity.
Qed.

(** X19.  [show] encodes the text cut to the digit count.  When that succeeds
    the bytes are written from position 0; [colon] adds bit 0x80 to the
    second byte when there are at least two bytes and is ignored, without an
    error, when there are fewer.  When the encoding fails, [show] raises that
    error and the bus has seen nothing. *)
Theorem show_writes :
  forall (text : string) (colon : bool) (w : world),
    (forall vs,
       encode_string (cls (device w)) (str_prefix text (_digits (device w))) = Ok vs ->
       show text colon w
       = write (if colon && (1 <? len vs)
                then alter (fun b => Z.lor b 0x80) 1%nat vs else vs) 0 w)
    /\ (forall e,
       encode_string (cls (device w)) (str_prefix text (_digits (device w))) = Raise e ->
       show text colon w = (Raise e, w)).
Proof.
  intros text colon w. split.
  - intros vs Hvs. exact (show_as_write text colon w vs Hvs).
  - intros e He. exact (show_raise text colon w e He).
Qed.

Lemma show_writes_witness :
  show "ab" true quad = write [0x77; 0xFC] 0 quad
  /\ show "a" true quad = write [0x77] 0 quad
  /\ show "a?" true quad
     = (Raise (ValueError "Character out of range: 63 '?'"), quad).
Proof.
  destruct (show_writes "ab" true quad) as [Hab _].
  destruct (show_writes "a" true quad) as [Ha _].
  destruct (show_writes "a?" true quad) as [_ Hq].
  split; [exact (Hab [0x77; 0x7C] eq_refl)|].
  split; [exact (Ha [0x77] eq_refl)|].
  exact (Hq _ eq_refl).
Defined.

Lemma str_prefix_app s1 s2 n :
  Z.of_nat (String.length s1) = n -> str_prefix (String.append s1 s2) n = s1.
Proof.
  intros Hn. unfold str_prefix, slice_bound.
  destruct (Z.ltb_spec n 0); [lia|].
  rewrite length_string_append, list_ascii_of_string_app.
  replace (Z.to_nat (Z.min n (Z.of_nat (String.length s1 + String.length s2))))
    with (length (list_ascii_of_string s1))
    by (rewrite length_list_ascii_of_string; lia).
  rewrite take_app_length. apply string_of_list_ascii_of_string.
Qed.

(** X20.  What follows the first [digits] characters of the text is never looked
    at by [show]: it is not displayed and cannot make the call fail. *)
Theorem show_ignores_overflow :
  forall (s1 s2 : string) (colon : bool) (w : world),
    Z.of_nat (String.length s1) = _digits (device w) ->
    show (String.append s1 s2) colon w = show s1 colon w.
Proof.
  intros s1 s2 colon w Hlen. unfold show.
  rewrite !(bind_run _ _ _ _ _ (get_self_run w)).
  rewrite (str_prefix_app s1 s2 _ Hlen).
  rewrite (str_prefix_all s1) by lia. reflexivity.
Qed.

Lemma show_ignores_overflow_witness :
  show (String.append "1234" "?!") false quad = show "1234" false quad.
Proof. apply (show_ignores_overflow "1234" "?!" false quad). reflexivity. Defined.

Lemma scroll_segments_windows_witness :
  scroll (Segments [0x77; 0x7C]) 250 quad
  = (Ok tt,
     extend quad
       (flat_map
          (fun i => write_events 7 (window 4 [0x77; 0x7C] (Z.to_nat i)) 0
                    ++ [SleepMs 250])
          (range (len [0x77; 0x7C] + 4 + 1))))
  /\ len (range (len [0x77; 0x7C] + 4 + 1)) = len [0x77; 0x7C] + 4 + 1.
Proof.
  destruct (scroll_segments_windows [0x77; 0x7C] 250 quad ltac:(simpl; lia))
    as (Hrun & Hcount & _).
  split; [exact Hrun|exact Hcount].
Defined.

Lemma temperature_one_digit_conds num :
  Qltb (inject_Z num) (Qplus (Qopp (pow10 (1 - 3))) (inject_Z 1)) = (num <? 1)
  /\ Qltb (Qminus (pow10 (1 - 2)) (inject_Z 1)) (inject_Z num) = (-1 <? num).
Proof. split; solve_bound. Qed.

(** X23.  On a one digit display [temperature] always fails, after a first
    write: it shows "l" for a value up to 0 and "h" for a value from 1 on,
    and then raises the position error of the closing write at position -1,
    so that degree sign and C are never sent. *)
Theorem temperature_one_digit :
  forall (num : Z) (w : world),
    _digits (device w) = 1 ->
    exists shown,
      temperature num w
      = (Raise (ValueError "Position out of range"),
         extend w (write_events (_brightness (device w)) shown 0))
      /\ (num <= 0 -> shown = [0x38])
      /\ (1 <= num -> shown = [0x76]).
Proof.
  intros num w Hd.
  assert (Htail : forall evs,
             (degree <- lift (getitem _SEGMENTS 38) ;;
              letter_c <- lift (getitem _SEGMENTS 12) ;;
              write [degree; letter_c] (1 - 2)) (extend w evs)
             = (Raise (ValueError "Position out of range"), extend w evs)).
  { intros evs.
    change (getitem _SEGMENTS 38) with (Ok 0x63).
    change (getitem _SEGMENTS 12) with (Ok 0x39).
    rewrite (bind_run _ _ _ _ _ (lift_run _ _)).
    rewrite (bind_run _ _ _ _ _ (lift_run _ _)).
    apply write_raise. left. lia. }
  assert (Hshow : forall text v,
             encode_string (cls (device w)) (str_prefix text 1) = Ok [v] ->
             show text false w
             = (Ok tt, extend w (write_events (_brightness (device w)) [v] 0))).
  { intros text v Hv. rewrite <- Hd in Hv.
    rewrite (show_as_write text false w [v] Hv). simpl.
    apply write_run. lia. }
  unfold temperature. rewrite (bind_run _ _ _ _ _ (get_self_run w)).
  rewrite Hd.
  destruct (temperature_one_digit_conds num) as [Hlo Hhi]. rewrite Hlo, Hhi.
  destruct (Z.ltb_spec num 1) as [H1|H1].
  - exists [0x38].
    rewrite (bind_run _ _ _ _ _
               (Hshow "lo"%string 0x38 ltac:(destruct (cls (device w)); reflexivity))).
    rewrite Htail. split; [reflexivity|]. split; [reflexivity|lia].
  - destruct (Z.ltb_spec (-1) num) as [H2|H2]; [|lia].
    exists [0x76].
    rewrite (bind_run _ _ _ _ _
               (Hshow "hi"%string 0x76 ltac:(destruct (cls (device w)); reflexivity))).
    rewrite Htail. split; [reflexivity|]. split; [lia|reflexivity].
Qed.

Lemma temperature_one_digit_witness :
  exists shown,
    temperature (-3) single
    = (Raise (ValueError "Position out of range"),
       extend single (write_events 7 shown 0))
    /\ shown = [0x38].
Proof.
  destruct (temperature_one_digit (-3) single eq_refl) as (shown & Hrun & Hlo & _).
  exists shown. split; [exact Hrun|]. apply Hlo. lia.
Defined.

(** ** Framing on the lines *)

Lemma lines_app evs1 evs2 :
  forall clk dio,
    lines clk dio (evs1 ++ evs2)
    = lines (fst (lines clk dio evs1)) (snd (lines clk dio evs1)) evs2.
Proof.
  induction evs1 as [|e evs1 IH]; intros clk dio; [reflexivity|].
  destruct e as [[] v|[] v|p|n|n]; simpl; apply IH.
Qed.

Lemma conditions_app evs1 evs2 :
  forall clk dio,
    conditions clk dio (evs1 ++ evs2)
    = conditions clk dio evs1
      ++ conditions (fst (lines clk dio evs1)) (snd (lines clk dio evs1)) evs2.
Proof.
  induction evs1 as [|e evs1 IH]; intros clk dio; [reflexivity|].
  destruct e as [[] v|[] v|p|n|n]; simpl; rewrite ?IH, ?app_assoc; reflexivity.
Qed.

(** A byte frame entered with the clock low leaves it low and shows
    neither a start nor a stop, whatever the bits are. *)
Lemma byte_on_lines b dio :
  conditions 0 dio (byte_events b) = []
  /\ fst (lines 0 dio (byte_events b)) = 0.
Proof. split; reflexivity. Qed.

Lemma bytes_on_lines segments :
  forall dio,
    conditions 0 dio (flat_map byte_events segments) = []
    /\ fst (lines 0 dio (flat_map byte_events segments)) = 0.
Proof.
  induction segments as [|b l IH]; intros dio; [split; reflexivity|].
  cbn [flat_map]. rewrite conditions_app, lines_app.
  destruct (byte_on_lines b dio) as [Hc Hl]. rewrite Hc, Hl.
  apply IH.
Qed.

(** One frame from idle lines: a start, the bytes, a stop, idle again. *)
Lemma frame_on_lines segments :
  conditions 1 1 (start_events ++ flat_map byte_events segments ++ stop_events)
  = [Start; Stop]
  /\ lines 1 1 (start_events ++ flat_map byte_events segments ++ stop_events)
     = (1, 1).
Proof.
  change (start_events ++ flat_map byte_events segments ++ stop_events)
    with ([PinWrite DIO 0; SleepUs 10; PinWrite CLK 0; SleepUs 10]
            ++ flat_map byte_events segments ++ stop_events).
  cbn [app conditions lines edge]. change (edge 1 1 0) with [Start].
  rewrite conditions_app, lines_app.
  destruct (bytes_on_lines segments 0) as [Hc Hl]. rewrite Hc, Hl.
  split; reflexivity.
Qed.

Lemma byte_frame_on_lines b :
  conditions 1 1 (start_events ++ byte_events b ++ stop_events) = [Start; Stop]
  /\ lines 1 1 (start_events ++ byte_events b ++ stop_events) = (1, 1).
Proof.
  pose proof (frame_on_lines [b]) as H.
  cbn [flat_map] in H. rewrite app_nil_r in H. exact H.
Qed.

(** A trace that leaves the lines idle can be followed by another. *)
Lemma idle_then evs1 evs2 cs :
  conditions 1 1 evs1 = cs -> lines 1 1 evs1 = (1, 1) ->
  conditions 1 1 (evs1 ++ evs2) = cs ++ conditions 1 1 evs2
  /\ lines 1 1 (evs1 ++ evs2) = lines 1 1 evs2.
Proof.
  intros Hc Hl. rewrite conditions_app, lines_app, Hc, Hl. split; reflexivity.
Qed.

Lemma write_on_lines level segments pos :
  conditions 1 1 (write_events level segments pos)
  = [Start; Stop; Start; Stop; Start; Stop]
  /\ lines 1 1 (write_events level segments pos) = (1, 1).
Proof.
  unfold write_events, data_cmd_events, dsp_ctrl_events.
  replace (start_events ++ byte_events (Z.lor 192 pos)
             ++ flat_map byte_events segments ++ stop_events
             ++ start_events ++ byte_events (Z.lor 136 level) ++ stop_events)
    with ((start_events ++ flat_map byte_events (Z.lor 192 pos :: segments)
             ++ stop_events)
            ++ start_events ++ byte_events (Z.lor 136 level) ++ stop_events)
    by (cbn [flat_map]; rewrite <- !app_assoc; reflexivity).
  destruct (byte_frame_on_lines 64) as [Hc1 Hl1].
  destruct (frame_on_lines (Z.lor 192 pos :: segments)) as [Hc2 Hl2].
  destruct (byte_frame_on_lines (Z.lor 136 level)) as [Hc3 Hl3].
  destruct (idle_then _ ((start_events
                            ++ flat_map byte_events (Z.lor 192 pos :: segments)
                            ++ stop_events)
                           ++ start_events ++ byte_events (Z.lor 136 level)
                           ++ stop_events) _ Hc1 Hl1) as [Ha La].
  destruct (idle_then _ (start_events ++ byte_events (Z.lor 136 level)
                           ++ stop_events) _ Hc2 Hl2) as [Hb Lb].
  rewrite Ha, La, Hb, Lb, Hc3, Hl3. split; reflexivity.
Qed.

(** X4.  On idle lines (clock and data high) a [write] at a valid position
    shows exactly three frames, each opened by a start condition and closed
    by a stop condition, and leaves the lines idle again; no segment byte,
    whatever its bits, is seen as a start or a stop. *)
Theorem write_framing :
  forall (segments : list Z) (pos : Z) (w : world),
    0 <= pos < _digits (device w) ->
    conditions 1 1 (emitted (write segments pos) w)
    = [Start; Stop; Start; Stop; Start; Stop]
    /\ lines 1 1 (emitted (write segments pos) w) = (1, 1).
Proof.
  intros segments pos w Hpos.
  rewrite (emitted_extend _ _ _ _ (write_run segments pos w Hpos)).
  apply write_on_lines.
Qed.

Lemma write_framing_witness :
  conditions 1 1 (emitted (write [0xFF; 0x00; 0x80] 0) quad)
  = [Start; Stop; Start; Stop; Start; Stop]
  /\ lines 1 1 (emitted (write [0xFF; 0x00; 0x80] 0) quad) = (1, 1).
Proof. apply (write_framing [0xFF; 0x00; 0x80] 0 quad). simpl. lia. Defined.

(** X3.  The constructor leaves the lines idle, as every [write] expects them.
    Its first frame, the data command, is sent with the data line already
    low from the pin set-up: the lines show a stop for it but no start. *)
Theorem init_framing :
  forall (k : variant) (level digits : Z) (clk0 dio0 : Z),
    0 <= level <= 7 -> 1 <= digits <= 6 ->
    conditions clk0 dio0 (snd (__init__ k level digits [])) = [Stop; Start; Stop]
    /\ lines clk0 dio0 (snd (__init__ k level digits [])) = (1, 1).
Proof.
  intros k level digits clk0 dio0 Hb Hd.
  destruct (init_accepts_run k level digits [] Hb Hd) as [Hrun _].
  rewrite Hrun. split; reflexivity.
Qed.

Lemma init_framing_witness :
  conditions 0 0 (snd (__init__ Plain 7 4 [])) = [Stop; Start; Stop]
  /\ lines 0 0 (snd (__init__ Plain 7 4 [])) = (1, 1).
Proof. apply (init_framing Plain 7 4 0 0); lia. Defined.
